(** * update_engine: install plan, client and status export

    A shallow embedding of the parts of update_engine that its
    specification makes checkable statements about:

    - [payload_consumer/install_plan.h]: the [InstallPlan] record with its
      in-class member initialisers, and [InstallPlanAction];
    - [aosp/update_engine_client_android.cc]: the command line client, its
      callback object and its exit codes;
    - [update_status_utils.cc]: the status export;
    - [aosp/update_attempter_android.h]: the coordinator's interface.

    C++ integers are [Z]; [std::string] is [string] (a sequence of 8-bit
    characters); [std::vector] is [list]; enums are inductive types or, where
    the code casts them from [int], plain [Z]. *)

From Stdlib Require Import ZArith List String Ascii Bool Lia.
From Stdlib Require Import DecimalString DecimalZ DecimalPos PrimFloat.
Import ListNotations.

Local Open Scope string_scope.
Local Open Scope Z_scope.

(* ===================================================================== *)
(** ** common/error_code.h, sysexits.h *)
(* ===================================================================== *)

Module ErrorCode.

(** [enum class ErrorCode : int]; the client obtains values by
    [static_cast<ErrorCode>(int)], so a code is the integer itself. *)
Definition t := Z.

(** Modelled from the spec: [common/error_code.h] is not among the
    sources; section 6.1 fixes the two numeric values used here,
    [0 (kSuccess)] and [52 (UpdatedButNotActive)]. *)
Definition kSuccess : t := 0.
Definition kUpdatedButNotActive : t := 52.

End ErrorCode.

Module SysExits.

(** The codes of [<sysexits.h>]: [EX_OK] and the error range
    [EX__BASE = 64 .. EX__MAX = 78], whose first is [EX_USAGE]. *)
Definition EX_OK : Z := 0.
Definition EX_USAGE : Z := 64.
Definition EX__BASE : Z := 64.
Definition EX__MAX : Z := 78.

(** [c] is one of the error codes that [<sysexits.h>] names. *)
Definition is_sysexits_error (c : Z) : bool :=
  (EX__BASE <=? c) && (c <=? EX__MAX).

End SysExits.

(* ===================================================================== *)
(** ** payload_consumer/install_plan.h *)
(* ===================================================================== *)

Module InstallPlanH.

Inductive InstallPayloadType := kUnknown | kFull | kDelta.

(** [brillo::Blob] is a vector of bytes. *)
Definition Blob := list Byte.byte.

(** Modelled from the spec: [common/boot_control_interface.h] is not
    among the sources. [BootControlInterface::Slot] is an unsigned
    integer; section 3 says that a slot field may hold the sentinel
    "invalid", the largest [unsigned int]. *)
Definition Slot := Z.
Definition kInvalidSlot : Slot := 4294967295.

Record Payload := {
  payload_urls : list string;
  size : Z;
  metadata_size : Z;
  metadata_signature : string;
  hash : Blob;
  type : InstallPayloadType;
  fp : string;
  app_id : string;
  already_applied : bool
}.

(** A [Payload] as its member initialisers leave it. *)
Definition Payload_default : Payload := {|
  payload_urls := [];
  size := 0;
  metadata_size := 0;
  metadata_signature := "";
  hash := [];
  type := kUnknown;
  fp := "";
  app_id := "";
  already_applied := false
|}.

Record Partition := {
  name : string;
  source_path : string;
  source_size : Z;
  source_hash : Blob;
  target_path : string;
  readonly_target_path : string;
  target_size : Z;
  target_hash : Blob;
  block_size : Z;
  run_postinstall : bool;
  postinstall_path : string;
  filesystem_type : string;
  postinstall_optional : bool;
  hash_tree_data_offset : Z;
  hash_tree_data_size : Z;
  hash_tree_offset : Z;
  hash_tree_size : Z;
  hash_tree_algorithm : string;
  hash_tree_salt : Blob;
  fec_data_offset : Z;
  fec_data_size : Z;
  fec_offset : Z;
  fec_size : Z;
  fec_roots : Z
}.

Record InstallPlan := {
  is_resume : bool;
  vabc_none : bool;
  disable_vabc : bool;
  download_url : string;
  version : string;
  payloads : list Payload;
  source_slot : Slot;
  target_slot : Slot;
  partitions : list Partition;
  hash_checks_mandatory : bool;
  powerwash_required : bool;
  spl_downgrade : bool;
  switch_slot_on_reboot : bool;
  run_post_install : bool;
  write_verity : bool;
  public_key_rsa : string;
  untouched_dynamic_partitions : list string;
  batched_writes : bool;
  enable_threading : option bool
}.

(** [InstallPlan() = default]: every member takes its in-class
    initialiser; strings and vectors are empty, the optional is
    disengaged. *)
Definition InstallPlan_default : InstallPlan := {|
  is_resume := false;
  vabc_none := false;
  disable_vabc := false;
  download_url := "";
  version := "";
  payloads := [];
  source_slot := kInvalidSlot;
  target_slot := kInvalidSlot;
  partitions := [];
  hash_checks_mandatory := false;
  powerwash_required := false;
  spl_downgrade := false;
  switch_slot_on_reboot := true;
  run_post_install := true;
  write_verity := true;
  public_key_rsa := "";
  untouched_dynamic_partitions := [];
  batched_writes := false;
  enable_threading := None
|}.

(** *** The action framework around [InstallPlanAction] *)

Definition PipeRef := nat.

(** Modelled from the spec: [common/action.h], [common/action_pipe.h]
    and [common/action_processor.h] are not among the sources. Section
    4.2: each stage declares an input and an output object, both an
    [InstallPlan]; a pipe links the output of one stage to the input of
    the next; a stage ends by reporting a terminal error code to the
    runner. A pipe is an object shared by the two stages it links, so the
    pipes live in a store and a stage holds a reference to its pipe. *)
Record Processor := {
  pipes : PipeRef -> InstallPlan;
  (** the [ActionComplete] calls received, oldest first *)
  action_complete : list (string * ErrorCode.t)
}.

(** Modelled from the spec: [ActionPipe::set_contents], of the missing
    [common/action_pipe.h]; the pipe [p] now holds [obj]. *)
Definition set_contents (p : PipeRef) (obj : InstallPlan) (w : Processor)
  : Processor :=
  {| pipes := fun q => if Nat.eqb q p then obj else pipes w q;
     action_complete := action_complete w |}.

(** Modelled from the spec: [ActionProcessor::ActionComplete], of the
    missing [common/action_processor.h]; the runner learns the terminal
    code of the stage named [who]. *)
Definition ActionComplete (who : string) (code : ErrorCode.t) (w : Processor)
  : Processor :=
  {| pipes := pipes w;
     action_complete := action_complete w ++ [(who, code)] |}.

(** [InstallPlanAction]: the plan it was constructed with and the output
    pipe it was bonded to ([None] is the null [out_pipe_]). *)
Record InstallPlanAction := {
  install_plan_ : InstallPlan;
  out_pipe_ : option PipeRef
}.

Definition StaticType : string := "InstallPlanAction".

(** Modelled from the spec: [Action::HasOutputPipe], of the missing
    [common/action.h]; whether an output pipe is attached. *)
Definition HasOutputPipe (a : InstallPlanAction) : bool :=
  match out_pipe_ a with Some _ => true | None => false end.

(** Modelled from the spec: [Action::SetOutputObject], of the missing
    [common/action.h]; the output pipe receives [obj]. *)
Definition SetOutputObject (a : InstallPlanAction) (obj : InstallPlan)
    (w : Processor) : Processor :=
  match out_pipe_ a with
  | Some p => set_contents p obj w
  | None => w
  end.

(** [InstallPlanAction::PerformAction]. *)
Definition PerformAction (a : InstallPlanAction) (w : Processor) : Processor :=
  let w1 := if HasOutputPipe a then SetOutputObject a (install_plan_ a) w
            else w in
  ActionComplete StaticType ErrorCode.kSuccess w1.

End InstallPlanH.

(* ===================================================================== *)
(** ** The string helpers of libchrome that the sources call *)
(* ===================================================================== *)

Module Base.

Inductive WhitespaceHandling := KEEP_WHITESPACE | TRIM_WHITESPACE.
Inductive SplitResult := SPLIT_WANT_ALL | SPLIT_WANT_NONEMPTY.

(** [std::string::empty]. *)
Definition empty (s : string) : bool :=
  match s with EmptyString => true | String _ _ => false end.

(** [c] is one of the characters of [set]. *)
Fixpoint contains (set : string) (c : ascii) : bool :=
  match set with
  | EmptyString => false
  | String d set' => Ascii.eqb c d || contains set' c
  end.

(** [base::kWhitespaceASCII]: tab, line feed, vertical tab, form feed,
    carriage return and space. *)
Definition kWhitespaceASCII : string :=
  String (ascii_of_nat 9) (String (ascii_of_nat 10) (String (ascii_of_nat 11)
 (String (ascii_of_nat 12) (String (ascii_of_nat 13) (String (ascii_of_nat 32)
  EmptyString))))).

Fixpoint TrimLeading (s : string) : string :=
  match s with
  | EmptyString => EmptyString
  | String c s' => if contains kWhitespaceASCII c then TrimLeading s' else s
  end.

Fixpoint TrimTrailing (s : string) : string :=
  match s with
  | EmptyString => EmptyString
  | String c s' =>
      match TrimTrailing s' with
      | EmptyString =>
          if contains kWhitespaceASCII c then EmptyString
          else String c EmptyString
      | t => String c t
      end
  end.

(** The loop of [SplitStringT]: the pieces of [str] between the
    characters of [separators], empty pieces included. One more piece
    than separators found. *)
Fixpoint pieces (separators : string) (str : string) : list string :=
  match str with
  | EmptyString => [EmptyString]
  | String c rest =>
      if contains separators c then EmptyString :: pieces separators rest
      else match pieces separators rest with
           | p :: ps => String c p :: ps
           | [] => [String c EmptyString]
           end
  end.

(** [base::SplitString(input, separators, whitespace, result_type)]:
    no piece at all for an empty input; each piece is trimmed when asked,
    then kept unless it is empty and only non-empty pieces are wanted. *)
Definition SplitString (input separators : string)
    (whitespace : WhitespaceHandling) (result_type : SplitResult)
  : list string :=
  if empty input then []
  else
    filter
      (fun piece =>
         match result_type with
         | SPLIT_WANT_ALL => true
         | SPLIT_WANT_NONEMPTY => negb (empty piece)
         end)
      (map
         (fun piece =>
            match whitespace with
            | KEEP_WHITESPACE => piece
            | TRIM_WHITESPACE => TrimTrailing (TrimLeading piece)
            end)
         (pieces separators input)).

(** The one-character string holding a line feed. *)
Definition LF : string := String (ascii_of_nat 10) EmptyString.

(** [value] holds no line feed. *)
Fixpoint single_line (value : string) : bool :=
  match value with
  | EmptyString => true
  | String c rest => negb (Ascii.eqb c (ascii_of_nat 10)) && single_line rest
  end.

End Base.

(* ===================================================================== *)
(** ** aosp/update_engine_client_android.cc *)
(* ===================================================================== *)

Module Client.
Import SysExits.

(** [android::binder::Status]: an exception code, [EX_NONE] when the
    call went through. *)
Record Status := { exceptionCode : Z }.
Definition EX_NONE : Z := 0.
Definition isOk (s : Status) : bool := exceptionCode s =? EX_NONE.
Definition Status_ok : Status := {| exceptionCode := EX_NONE |}.

(** [android::String16] built from the [len] bytes at [data]; the value
    is identified by the bytes it was converted from. *)
Inductive String16 := String16_of (data : string).

(** The service proxy: what each call of [IUpdateEngine] answers. *)
Record IUpdateEngine := {
  bind : Status * bool;
  suspend : Status;
  resume : Status;
  cancel : Status;
  resetStatus : Status;
  triggerPostinstall : String16 -> Status;
  setShouldSwitchSlotOnReboot : String16 -> Status;
  resetShouldSwitchSlotOnReboot : Status;
  verifyPayloadApplicable : String16 -> Status * bool;
  allocateSpaceForPayload : String16 -> list String16 -> Status * Z;
  cleanupSuccessfulUpdate : Status;
  setPerformanceMode : bool -> Status;
  applyPayload : String16 -> Z -> Z -> list String16 -> Status
}.

(** What the process finds around it: the result of
    [brillo::Daemon::OnInit], of [android::getService] ([android::OK] is
    0), whether the message loop takes a posted task, and the service. *)
Record Environment := {
  Daemon_OnInit : Z;
  getService : Z;
  PostTask : bool;
  service_ : IUpdateEngine
}.
Definition android_OK : Z := 0.

(** The flags, as [brillo::FlagHelper::Init] leaves them. *)
Record Flags := {
  FLAGS_update : bool;
  FLAGS_payload : string;
  FLAGS_offset : Z;
  FLAGS_size : Z;
  FLAGS_headers : string;
  FLAGS_verify : bool;
  FLAGS_allocate : bool;
  FLAGS_metadata : string;
  FLAGS_switch_slot : string;
  FLAGS_trigger_postinstall : string;
  FLAGS_suspend : bool;
  FLAGS_resume : bool;
  FLAGS_cancel : bool;
  FLAGS_reset_status : bool;
  FLAGS_follow : bool;
  FLAGS_merge : bool;
  FLAGS_perf_mode : bool
}.

Definition UNSPECIFIED_FLAG : string := "unspecified".

(** The defaults of the [DEFINE_*] lines. *)
Definition Flags_default : Flags := {|
  FLAGS_update := false;
  FLAGS_payload := "http://127.0.0.1:8080/payload";
  FLAGS_offset := 0;
  FLAGS_size := 0;
  FLAGS_headers := "";
  FLAGS_verify := false;
  FLAGS_allocate := false;
  FLAGS_metadata := "/data/ota_package/metadata";
  FLAGS_switch_slot := UNSPECIFIED_FLAG;
  FLAGS_trigger_postinstall := UNSPECIFIED_FLAG;
  FLAGS_suspend := false;
  FLAGS_resume := false;
  FLAGS_cancel := false;
  FLAGS_reset_status := false;
  FLAGS_follow := false;
  FLAGS_merge := false;
  FLAGS_perf_mode := false
|}.

(** The lines the client logs, one constructor per [LOG] statement. *)
Inductive LogLine :=
| LogNothingToDo
| LogPositionalArgument (front : string)
| LogGetServiceFailed (status : Z)
| LogBindFailed
| LogSwitchSlotInvalid (got : string)
| LogPayloadApplicable (applicable : bool)
| LogAllocated
| LogInsufficientSpace (required : Z)
| LogAllocationFailed
| LogCleanupFailed
| LogStatus (status : Status)
| LogOnPayloadApplicationComplete (error_code : Z)
| LogServiceDied.

(** The client object: the [QuitWithExitCode] tasks waiting on the
    message loop (oldest first), the log, and the registrations made. *)
Record State := {
  quit_tasks : list Z;
  log : list LogLine;
  callback_ : bool;
  cleanup_callback_ : bool;
  death_notification : bool
}.

Definition State_init : State := {|
  quit_tasks := []; log := [];
  callback_ := false; cleanup_callback_ := false;
  death_notification := false
|}.

Definition LOG (l : LogLine) (c : State) : State :=
  {| quit_tasks := quit_tasks c; log := log c ++ [l];
     callback_ := callback_ c; cleanup_callback_ := cleanup_callback_ c;
     death_notification := death_notification c |}.

Definition post_quit (code : Z) (c : State) : State :=
  {| quit_tasks := quit_tasks c ++ [code]; log := log c;
     callback_ := callback_ c; cleanup_callback_ := cleanup_callback_ c;
     death_notification := death_notification c |}.

Definition set_callback (c : State) : State :=
  {| quit_tasks := quit_tasks c; log := log c;
     callback_ := true; cleanup_callback_ := cleanup_callback_ c;
     death_notification := death_notification c |}.

Definition set_cleanup_callback (c : State) : State :=
  {| quit_tasks := quit_tasks c; log := log c;
     callback_ := callback_ c; cleanup_callback_ := true;
     death_notification := death_notification c |}.

Definition RegisterDeathNotification (c : State) : State :=
  {| quit_tasks := quit_tasks c; log := log c;
     callback_ := callback_ c; cleanup_callback_ := cleanup_callback_ c;
     death_notification := true |}.

(** [ExitWhenIdle(int return_code)]: post the delayed exit; 1 when the
    loop refuses the task. *)
Definition ExitWhenIdle (env : Environment) (return_code : Z) (c : State)
  : Z * State :=
  if negb (PostTask env) then (1, c)
  else (EX_OK, post_quit return_code c).

(** [ExitWhenIdle(const Status& status)]. *)
Definition ExitWhenIdle_Status (env : Environment) (status : Status)
    (c : State) : Z * State :=
  if isOk status then ExitWhenIdle env EX_OK c
  else ExitWhenIdle env (exceptionCode status) (LOG (LogStatus status) c).

(** [UECallback::onPayloadApplicationComplete(int error_code)]. *)
Definition onPayloadApplicationComplete (env : Environment) (error_code : Z)
    (c : State) : State :=
  let code : ErrorCode.t := error_code in
  let c := LOG (LogOnPayloadApplicationComplete error_code) c in
  snd (ExitWhenIdle env
         (if (code =? ErrorCode.kSuccess)
             || (code =? ErrorCode.kUpdatedButNotActive)
          then EX_OK else 1)
         c).

(** [ParseHeaders]. *)
Definition ParseHeaders (arg : string) : list String16 :=
  let headers :=
    Base.SplitString arg Base.LF Base.KEEP_WHITESPACE
      Base.SPLIT_WANT_NONEMPTY in
  map String16_of headers.

(** [OnInit] from [if (FLAGS_verify)] to its end. *)
Definition OnInit_tail (env : Environment) (F : Flags) (keep_running : bool)
    (c : State) : Z * State :=
  let service := service_ env in
  if FLAGS_verify F then
    let '(status, applicable) :=
      verifyPayloadApplicable service (String16_of (FLAGS_metadata F)) in
    ExitWhenIdle_Status env status (LOG (LogPayloadApplicable applicable) c)
  else if FLAGS_allocate F then
    let headers := ParseHeaders (FLAGS_headers F) in
    let '(status, ret) :=
      allocateSpaceForPayload service (String16_of (FLAGS_metadata F))
        headers in
    let c :=
      if isOk status then
        if ret =? 0 then LOG LogAllocated c
        else LOG (LogInsufficientSpace ret) c
      else LOG LogAllocationFailed c in
    ExitWhenIdle_Status env status c
  else
    let merged : (Z * State) + (bool * State) :=
      if FLAGS_merge F then
        let c := set_cleanup_callback c in
        let status := cleanupSuccessfulUpdate service in
        if negb (isOk status) then
          inl (ExitWhenIdle_Status env status (LOG LogCleanupFailed c))
        else inr (true, c)
      else inr (keep_running, c) in
    match merged with
    | inl r => r
    | inr (keep_running, c) =>
        if FLAGS_perf_mode F then
          ExitWhenIdle_Status env (setPerformanceMode service true) c
        else
          let status :=
            if FLAGS_update F then
              applyPayload service (String16_of (FLAGS_payload F))
                (FLAGS_offset F) (FLAGS_size F)
                (ParseHeaders (FLAGS_headers F))
            else Status_ok in
          if negb (isOk status) then ExitWhenIdle_Status env status c
          else if negb keep_running then ExitWhenIdle env EX_OK c
          else (EX_OK, RegisterDeathNotification c)
    end.

(** [OnInit] from [if (FLAGS_suspend)] to [if (FLAGS_switch_slot !=
    UNSPECIFIED_FLAG)], which falls through to the rest when the slot
    switch is followed. *)
Definition OnInit_commands (env : Environment) (F : Flags)
    (keep_running : bool) (c : State) : Z * State :=
  let service := service_ env in
  if FLAGS_suspend F then
    ExitWhenIdle_Status env (suspend service) c
  else if FLAGS_resume F then
    ExitWhenIdle_Status env (resume service) c
  else if FLAGS_cancel F then
    ExitWhenIdle_Status env (cancel service) c
  else if FLAGS_reset_status F then
    ExitWhenIdle_Status env (resetStatus service) c
  else if negb (String.eqb (FLAGS_trigger_postinstall F) UNSPECIFIED_FLAG)
  then
    ExitWhenIdle_Status env
      (triggerPostinstall service
         (String16_of (FLAGS_trigger_postinstall F))) c
  else if negb (String.eqb (FLAGS_switch_slot F) UNSPECIFIED_FLAG) then
    if negb (String.eqb (FLAGS_switch_slot F) "true")
       && negb (String.eqb (FLAGS_switch_slot F) "false")
    then (1, LOG (LogSwitchSlotInvalid (FLAGS_switch_slot F)) c)
    else
      let should_switch := String.eqb (FLAGS_switch_slot F) "true" in
      if should_switch then
        let status :=
          setShouldSwitchSlotOnReboot service
            (String16_of (FLAGS_metadata F)) in
        if negb (FLAGS_follow F) then ExitWhenIdle_Status env status c
        else OnInit_tail env F keep_running c
      else
        ExitWhenIdle_Status env (resetShouldSwitchSlotOnReboot service) c
  else OnInit_tail env F keep_running c.

(** [OnInit]. [argc_] counts the program name; [positional_args] is what
    [base::CommandLine::GetArgs] returns. *)
Definition OnInit (env : Environment) (argc_ : Z)
    (positional_args : list string) (F : Flags) (c : State) : Z * State :=
  let ret := Daemon_OnInit env in
  if negb (ret =? EX_OK) then (ret, c)
  else if argc_ =? 1 then (1, LOG LogNothingToDo c)
  else
    match positional_args with
    | front :: _ => (1, LOG (LogPositionalArgument front) c)
    | [] =>
      let service := service_ env in
      let status := getService env in
      if negb (status =? android_OK) then
        ExitWhenIdle env 1 (LOG (LogGetServiceFailed status) c)
      else
        let followed : (Z * State) + (bool * State) :=
          if FLAGS_follow F then
            let c := set_callback c in
            let '(st, bound) := bind service in
            if negb (isOk st) || negb bound then inl (1, LOG LogBindFailed c)
            else inr (true, c)
          else inr (false, c) in
        match followed with
        | inl r => r
        | inr (keep_running, c) => OnInit_commands env F keep_running c
        end
    end.

(** [UpdateEngineServiceDied]: quits at once with 1. *)
Definition UpdateEngineServiceDied (c : State) : Z * State :=
  (1, LOG LogServiceDied c).

(** How a run of the client stands: it has exited with a code, or its
    message loop is still waiting for callbacks. *)
Inductive Outcome := Exited (code : Z) | Waiting (c : State).

(** The message loop of [brillo::Daemon::Run]: a posted
    [QuitWithExitCode] task sets the exit code and breaks the loop; [Run]
    then lets the tasks still queued run before it returns the exit code,
    which is therefore the one of the task posted last. *)
Definition loop (c : State) : Outcome :=
  match quit_tasks c with
  | code :: later => Exited (last later code)
  | [] => Waiting c
  end.

(** [main]: [client.Run()], which returns what [OnInit] returned unless
    that is [EX_OK], and otherwise runs the message loop. *)
Definition Run (env : Environment) (argc : Z) (positional_args : list string)
    (F : Flags) : Outcome :=
  let '(exit_code, c) := OnInit env argc positional_args F State_init in
  if negb (exit_code =? EX_OK) then Exited exit_code
  else loop c.

(** A waiting client receives [onPayloadApplicationComplete]. *)
Definition deliver (env : Environment) (error_code : Z) (c : State)
  : Outcome :=
  loop (onPayloadApplicationComplete env error_code c).

(** The answers of the service to the calls that [OnInit] can make for
    the flags [F], with the arguments it passes. *)
Definition answers (F : Flags) (service : IUpdateEngine) : list Status :=
  [ fst (bind service);
    suspend service;
    resume service;
    cancel service;
    resetStatus service;
    triggerPostinstall service (String16_of (FLAGS_trigger_postinstall F));
    setShouldSwitchSlotOnReboot service (String16_of (FLAGS_metadata F));
    resetShouldSwitchSlotOnReboot service;
    fst (verifyPayloadApplicable service (String16_of (FLAGS_metadata F)));
    fst (allocateSpaceForPayload service (String16_of (FLAGS_metadata F))
           (ParseHeaders (FLAGS_headers F)));
    cleanupSuccessfulUpdate service;
    setPerformanceMode service true;
    applyPayload service (String16_of (FLAGS_payload F)) (FLAGS_offset F)
      (FLAGS_size F) (ParseHeaders (FLAGS_headers F)) ].

(** A service on which every call goes through: nothing to bind to
    fails, the payload is applicable and fits. *)
Definition service_ok : IUpdateEngine := {|
  bind := (Status_ok, true);
  suspend := Status_ok;
  resume := Status_ok;
  cancel := Status_ok;
  resetStatus := Status_ok;
  triggerPostinstall := fun _ => Status_ok;
  setShouldSwitchSlotOnReboot := fun _ => Status_ok;
  resetShouldSwitchSlotOnReboot := Status_ok;
  verifyPayloadApplicable := fun _ => (Status_ok, true);
  allocateSpaceForPayload := fun _ _ => (Status_ok, 0);
  cleanupSuccessfulUpdate := Status_ok;
  setPerformanceMode := fun _ => Status_ok;
  applyPayload := fun _ _ _ _ => Status_ok
|}.

Definition env_ok : Environment := {|
  Daemon_OnInit := EX_OK;
  getService := android_OK;
  PostTask := true;
  service_ := service_ok
|}.

End Client.

(* ===================================================================== *)
(** ** brillo::KeyValueStore, as update_status_utils.cc uses it *)
(* ===================================================================== *)

Module KeyValueStore.
Import Base.

(** The store is a [std::map<std::string, std::string>]: at most one
    value per key, kept in the order of the keys. *)
Definition t := list (string * string).

Definition kTrueValue : string := "true".
Definition kFalseValue : string := "false".

Fixpoint SetString (key value : string) (store : t) : t :=
  match store with
  | [] => [(key, value)]
  | (k, v) :: rest =>
      match String.compare key k with
      | Lt => (key, value) :: store
      | Eq => (key, value) :: rest
      | Gt => (k, v) :: SetString key value rest
      end
  end.

Definition SetBoolean (key : string) (value : bool) (store : t) : t :=
  SetString key (if value then kTrueValue else kFalseValue) store.

Fixpoint GetString (key : string) (store : t) : option string :=
  match store with
  | [] => None
  | (k, v) :: rest => if String.eqb k key then Some v else GetString key rest
  end.

Definition GetBoolean (key : string) (store : t) : option bool :=
  match GetString key store with
  | None => None
  | Some string_value =>
      if String.eqb string_value kTrueValue then Some true
      else if String.eqb string_value kFalseValue then Some false
      else None
  end.

(** [GetKeys]. *)
Definition GetKeys (store : t) : list string := map fst store.

(** [SaveToString]: one line [key=value] per entry, each ended by a line
    feed, in the order of the keys; nothing is escaped. *)
Fixpoint SaveToString (store : t) : string :=
  match store with
  | [] => EmptyString
  | (k, v) :: rest => k ++ "=" ++ v ++ LF ++ SaveToString rest
  end.

(** [string_utils::SplitAtFirst(str, delimiter, &left, &right, false)]
    for a one-character delimiter: whether it was found, and the two
    parts around its first occurrence. *)
Fixpoint SplitAtFirst (str : string) (delimiter : ascii)
  : bool * string * string :=
  match str with
  | EmptyString => (false, EmptyString, EmptyString)
  | String c rest =>
      if Ascii.eqb c delimiter then (true, EmptyString, rest)
      else
        let '(found, left_part, right_part) := SplitAtFirst rest delimiter in
        (found, String c left_part, right_part)
  end.

(** [value.back() == '\\'] for a non-empty [value]. *)
Fixpoint ends_with_backslash (value : string) : bool :=
  match value with
  | EmptyString => false
  | String c EmptyString => Ascii.eqb c "\"
  | String _ rest => ends_with_backslash rest
  end.

Fixpoint pop_back (value : string) : string :=
  match value with
  | EmptyString => EmptyString
  | String _ EmptyString => EmptyString
  | String c rest => String c (pop_back rest)
  end.

Definition starts_with_hash (line : string) : bool :=
  match line with
  | String c _ => Ascii.eqb c "#"
  | EmptyString => false
  end.

(** The loop of [LoadFromString] over the lines: blank lines and
    comments are skipped; a line without [=] or with an empty key makes
    the load fail; a value ending in a backslash is continued with the
    next line. *)
Fixpoint load_lines (lines : list string) (store : t) : option t :=
  match lines with
  | [] => Some store
  | it :: rest =>
      let line := TrimLeading it in
      if empty line || starts_with_hash line then load_lines rest store
      else
        let '(found, key, value) := SplitAtFirst line "=" in
        if negb found then None
        else
          let key := TrimTrailing key in
          if empty key then None
          else
            (fix continued (value : string) (rest : list string)
                 {struct rest} : option t :=
               if ends_with_backslash value then
                 match rest with
                 | [] => None
                 | next :: rest' =>
                     if empty next then None
                     else continued (pop_back value ++ next) rest'
                 end
               else load_lines rest (SetString key value store))
              value rest
  end.

Definition LoadFromString (data : string) : option t :=
  load_lines (SplitString data LF KEEP_WHITESPACE SPLIT_WANT_ALL) [].

End KeyValueStore.

(* ===================================================================== *)
(** ** update_status_utils.cc *)
(* ===================================================================== *)

Module StatusUtils.
Import KeyValueStore.

(** [update_engine::UpdateStatus], with the enumerators that
    [UpdateStatusToString] switches over. *)
Inductive UpdateStatus :=
| IDLE
| CHECKING_FOR_UPDATE
| UPDATE_AVAILABLE
| NEED_PERMISSION_TO_UPDATE
| DOWNLOADING
| VERIFYING
| FINALIZING
| UPDATED_NEED_REBOOT
| REPORTING_ERROR_EVENT
| ATTEMPTING_ROLLBACK
| DISABLED
| CLEANUP_PREVIOUS_UPDATE.

Definition all_UpdateStatus : list UpdateStatus :=
  [IDLE; CHECKING_FOR_UPDATE; UPDATE_AVAILABLE; NEED_PERMISSION_TO_UPDATE;
   DOWNLOADING; VERIFYING; FINALIZING; UPDATED_NEED_REBOOT;
   REPORTING_ERROR_EVENT; ATTEMPTING_ROLLBACK; DISABLED;
   CLEANUP_PREVIOUS_UPDATE].

(** The spelling of an enumerator in the source. *)
Definition enumerator (status : UpdateStatus) : string :=
  match status with
  | IDLE => "IDLE"
  | CHECKING_FOR_UPDATE => "CHECKING_FOR_UPDATE"
  | UPDATE_AVAILABLE => "UPDATE_AVAILABLE"
  | NEED_PERMISSION_TO_UPDATE => "NEED_PERMISSION_TO_UPDATE"
  | DOWNLOADING => "DOWNLOADING"
  | VERIFYING => "VERIFYING"
  | FINALIZING => "FINALIZING"
  | UPDATED_NEED_REBOOT => "UPDATED_NEED_REBOOT"
  | REPORTING_ERROR_EVENT => "REPORTING_ERROR_EVENT"
  | ATTEMPTING_ROLLBACK => "ATTEMPTING_ROLLBACK"
  | DISABLED => "DISABLED"
  | CLEANUP_PREVIOUS_UPDATE => "CLEANUP_PREVIOUS_UPDATE"
  end.

(** The members of [update_engine::UpdateEngineStatus] that the export
    reads. [last_checked_time] and [new_size_bytes] are 64-bit integers,
    [progress] is a [double]. *)
Record UpdateEngineStatus := {
  last_checked_time : Z;
  progress : float;
  new_size_bytes : Z;
  status : UpdateStatus;
  new_version : string;
  is_enterprise_rollback : bool;
  is_install : bool;
  will_powerwash_after_reboot : bool
}.

Definition kCurrentOp : string := "CURRENT_OP".
Definition kIsInstall : string := "IS_INSTALL".
Definition kIsEnterpriseRollback : string := "IS_ENTERPRISE_ROLLBACK".
Definition kLastCheckedTime : string := "LAST_CHECKED_TIME".
Definition kNewSize : string := "NEW_SIZE".
Definition kNewVersion : string := "NEW_VERSION".
Definition kProgress : string := "PROGRESS".
Definition kWillPowerwashAfterReboot : string :=
  "WILL_POWERWASH_AFTER_REBOOT".

Definition kUpdateStatusIdle : string := "UPDATE_STATUS_IDLE".
Definition kUpdateStatusCheckingForUpdate : string :=
  "UPDATE_STATUS_CHECKING_FOR_UPDATE".
Definition kUpdateStatusUpdateAvailable : string :=
  "UPDATE_STATUS_UPDATE_AVAILABLE".
Definition kUpdateStatusDownloading : string := "UPDATE_STATUS_DOWNLOADING".
Definition kUpdateStatusVerifying : string := "UPDATE_STATUS_VERIFYING".
Definition kUpdateStatusFinalizing : string := "UPDATE_STATUS_FINALIZING".
Definition kUpdateStatusUpdatedNeedReboot : string :=
  "UPDATE_STATUS_UPDATED_NEED_REBOOT".
Definition kUpdateStatusReportingErrorEvent : string :=
  "UPDATE_STATUS_REPORTING_ERROR_EVENT".
Definition kUpdateStatusAttemptingRollback : string :=
  "UPDATE_STATUS_ATTEMPTING_ROLLBACK".
Definition kUpdateStatusDisabled : string := "UPDATE_STATUS_DISABLED".
Definition kUpdateStatusNeedPermissionToUpdate : string :=
  "UPDATE_STATUS_NEED_PERMISSION_TO_UPDATE".
Definition kUpdateStatusCleanupPreviousUpdate : string :=
  "UPDATE_STATUS_CLEANUP_PREVIOUS_UPDATE".

(** [UpdateStatusToString]. *)
Definition UpdateStatusToString (status : UpdateStatus) : string :=
  match status with
  | IDLE => kUpdateStatusIdle
  | CHECKING_FOR_UPDATE => kUpdateStatusCheckingForUpdate
  | UPDATE_AVAILABLE => kUpdateStatusUpdateAvailable
  | NEED_PERMISSION_TO_UPDATE => kUpdateStatusNeedPermissionToUpdate
  | DOWNLOADING => kUpdateStatusDownloading
  | VERIFYING => kUpdateStatusVerifying
  | FINALIZING => kUpdateStatusFinalizing
  | UPDATED_NEED_REBOOT => kUpdateStatusUpdatedNeedReboot
  | REPORTING_ERROR_EVENT => kUpdateStatusReportingErrorEvent
  | ATTEMPTING_ROLLBACK => kUpdateStatusAttemptingRollback
  | DISABLED => kUpdateStatusDisabled
  | CLEANUP_PREVIOUS_UPDATE => kUpdateStatusCleanupPreviousUpdate
  end.

(** [std::format("{}", n)] for an integer: its decimal digits, after a
    minus sign when it is negative. *)
Definition format_int (n : Z) : string :=
  NilZero.string_of_int (Z.to_int n).

Section StatusExport.

(** [std::format("{}", x)] for a [double] is taken as given. *)
Variable format_double : float -> string.

(** The store that [UpdateEngineStatusToString] fills. *)
Definition status_store (status_ : UpdateEngineStatus) : KeyValueStore.t :=
  let key_value_store : KeyValueStore.t := [] in
  let key_value_store :=
    SetString kLastCheckedTime (format_int (last_checked_time status_))
      key_value_store in
  let key_value_store :=
    SetString kProgress (format_double (progress status_))
      key_value_store in
  let key_value_store :=
    SetString kNewSize (format_int (new_size_bytes status_))
      key_value_store in
  let key_value_store :=
    SetString kCurrentOp (UpdateStatusToString (status status_))
      key_value_store in
  let key_value_store :=
    SetString kNewVersion (new_version status_) key_value_store in
  let key_value_store :=
    SetBoolean kIsEnterpriseRollback (is_enterprise_rollback status_)
      key_value_store in
  let key_value_store :=
    SetBoolean kIsInstall (is_install status_) key_value_store in
  let key_value_store :=
    SetBoolean kWillPowerwashAfterReboot
      (will_powerwash_after_reboot status_) key_value_store in
  key_value_store.

(** [UpdateEngineStatusToString]. *)
Definition UpdateEngineStatusToString (status_ : UpdateEngineStatus)
  : string :=
  SaveToString (status_store status_).

End StatusExport.

(** *** Reading the export back

    The reader of a client: load the blob into a store and read each
    key with the getter of its type. *)

Definition parse_int (s : string) : option Z :=
  option_map Z.of_int (NilZero.int_of_string s).

Definition GetInt (key : string) (store : KeyValueStore.t) : option Z :=
  match GetString key store with
  | Some s => parse_int s
  | None => None
  end.

(** The state whose literal is [s], if any. *)
Definition StringToUpdateStatus (s : string) : option UpdateStatus :=
  find (fun st => String.eqb (UpdateStatusToString st) s) all_UpdateStatus.

Definition GetUpdateStatus (key : string) (store : KeyValueStore.t)
  : option UpdateStatus :=
  match GetString key store with
  | Some s => StringToUpdateStatus s
  | None => None
  end.

Definition GetDouble (parse_double : string -> option float) (key : string)
    (store : KeyValueStore.t) : option float :=
  match GetString key store with
  | Some s => parse_double s
  | None => None
  end.

(** Every field that the claim names comes back from the blob. A
    [double] is compared by the identity of the value, not by [==]. *)
Definition recovers_every_field (format_double : float -> string)
    (parse_double : string -> option float) (s : UpdateEngineStatus) : Prop :=
  exists store,
    LoadFromString (UpdateEngineStatusToString format_double s) = Some store
    /\ GetInt kLastCheckedTime store = Some (last_checked_time s)
    /\ GetDouble parse_double kProgress store = Some (progress s)
    /\ GetInt kNewSize store = Some (new_size_bytes s)
    /\ GetUpdateStatus kCurrentOp store = Some (status s)
    /\ GetString kNewVersion store = Some (new_version s)
    /\ GetBoolean kIsEnterpriseRollback store
       = Some (is_enterprise_rollback s)
    /\ GetBoolean kIsInstall store = Some (is_install s)
    /\ GetBoolean kWillPowerwashAfterReboot store
       = Some (will_powerwash_after_reboot s).

End StatusUtils.

(* ===================================================================== *)
(** ** aosp/update_attempter_android.h *)
(* ===================================================================== *)

Module Attempter.
Import StatusUtils.

(** [enum class OTAResult]; its enumerators are written
    [OTAResult.ROLLED_BACK] and so on, as in the source. *)
Module OTAResult.
Inductive t :=
| NOT_ATTEMPTED
| ROLLED_BACK
| UPDATED_NEED_REBOOT
| OTA_SUCCESSFUL.
End OTAResult.

Definition Slot := InstallPlanH.Slot.

(** The content of [update_completed_marker] (section 6.4 of the spec:
    the lines [PAYLOAD_FP=<fp>] and [TARGET_SLOT=<n>]). *)
Record Marker := {
  PAYLOAD_FP : string;
  TARGET_SLOT : Slot
}.

(** The part of the prefs store that the restart reads: the marker, when
    the file exists. *)
Record Prefs := {
  update_completed_marker : option Marker
}.

(** Modelled from the spec: [GetOTAUpdateResult] is declared in the
    header and defined in [update_attempter_android.cc], which is not
    among the sources. Section 4.1: on restart, if
    [update_completed_marker] exists and the active slot equals the slot
    that was the target of the last attempt, the result is "updated, need
    reboot"; if the active slot is the old slot, the last attempt is
    treated as rolled back. Without a marker no attempt is on record. *)
Definition GetOTAUpdateResult (prefs_ : Prefs) (current_slot : Slot)
  : OTAResult.t :=
  match update_completed_marker prefs_ with
  | None => OTAResult.NOT_ATTEMPTED
  | Some marker =>
      if current_slot =? TARGET_SLOT marker then OTAResult.UPDATED_NEED_REBOOT
      else OTAResult.ROLLED_BACK
  end.

(** Modelled from the spec: the status that [Init] (defined in the
    missing [update_attempter_android.cc]) reports on restart, section
    4.1: [UPDATED_NEED_REBOOT] in the first case above, [IDLE]
    otherwise. *)
Definition Init_status (prefs_ : Prefs) (current_slot : Slot)
  : UpdateStatus :=
  match GetOTAUpdateResult prefs_ current_slot with
  | OTAResult.UPDATED_NEED_REBOOT => UPDATED_NEED_REBOOT
  | _ => IDLE
  end.

(** *** Status notifications *)

(** The two clocks of the process at one instant, in milliseconds: the
    wall clock ([base::Time]) and the monotonic one ([base::TimeTicks]). *)
Record Clocks := {
  Time_Now : Z;
  TimeTicks_Now : Z
}.

(** What reaches the coordinator: a state change or a progress report
    of the running stage. *)
Inductive Event :=
| StateChange (status : UpdateStatus)
| Progress (progress : float).

(** The members declared in the header that the broadcast uses, with
    their initialisers [status_{IDLE}] and [download_progress_{0.0}]. *)
Record Coordinator := {
  status_ : UpdateStatus;
  download_progress_ : float;
  last_notify_time_ : Z
}.

Definition Coordinator_init : Coordinator := {|
  status_ := IDLE;
  download_progress_ := 0%float;
  last_notify_time_ := 0
|}.

(** What an observer receives: [onStatusUpdate(status_code, progress)]. *)
Definition Notification := (UpdateStatus * float)%type.

Section Throttle.

(** The throttle constants, which the spec leaves open: the minimal
    time between two progress notifications and the minimal progress
    delta. *)
Variable threshold_ms : Z.
Variable threshold_progress : float.

(** Modelled from the spec: [SetStatusAndNotify] is declared in the
    header ("sets the status to the given status and notifies a status
    update to all observers") and defined in the missing
    [update_attempter_android.cc]. The time of the notification is
    kept in [last_notify_time_], a [base::TimeTicks]. *)
Definition SetStatusAndNotify (now : Clocks) (status : UpdateStatus)
    (c : Coordinator) : Coordinator * list Notification :=
  ({| status_ := status;
      download_progress_ := download_progress_ c;
      last_notify_time_ := TimeTicks_Now now |},
   [(status, download_progress_ c)]).

(** Modelled from the spec: [ProgressUpdate] is declared in the header
    and defined in the missing [update_attempter_android.cc]. Section
    4.1: a progress delta is delivered when it is beyond the throttle
    threshold (elapsed time at least N ms and progress delta at least
    Delta); the elapsed time is measured on the monotonic clock. *)
Definition ProgressUpdate (now : Clocks) (progress : float)
    (c : Coordinator) : Coordinator * list Notification :=
  if (threshold_ms <=? TimeTicks_Now now - last_notify_time_ c)
     && PrimFloat.leb threshold_progress
          (PrimFloat.sub progress (download_progress_ c))
  then
    SetStatusAndNotify now (status_ c)
      {| status_ := status_ c;
         download_progress_ := progress;
         last_notify_time_ := last_notify_time_ c |}
  else (c, []).

Definition step (now : Clocks) (e : Event) (c : Coordinator)
  : Coordinator * list Notification :=
  match e with
  | StateChange status => SetStatusAndNotify now status c
  | Progress progress => ProgressUpdate now progress c
  end.

(** An execution is the sequence of events with the clock readings at
    which they arrive; [notifications] is what the observers get. *)
Fixpoint notifications (execution : list (Clocks * Event))
    (c : Coordinator) : list Notification :=
  match execution with
  | [] => []
  | (now, e) :: rest =>
      let '(c', sent) := step now e c in
      sent ++ notifications rest c'
  end.

End Throttle.

(** Two executions differ solely in the wall clock: same events, same
    monotonic readings. *)
Definition monotonic_view (execution : list (Clocks * Event))
  : list (Z * Event) :=
  map (fun '(now, e) => (TimeTicks_Now now, e)) execution.

(** *** Space allocation *)

Section Allocate.

(** The bytes that the payload described by a metadata file and its
    headers needs on the device. *)
Variable payload_bytes : string -> list string -> Z.

(** Modelled from the spec: [AllocateSpaceForPayload] is declared in
    the header and defined in the missing
    [update_attempter_android.cc]. Section 4.1: precondition
    [state = IDLE]; returns 0 on success, else the byte shortfall.
    [available] is the space the device can give to the update; a call
    outside [IDLE] is refused ([None]). *)
Definition AllocateSpaceForPayload (status : UpdateStatus)
    (available : Z) (metadata_filename : string)
    (key_value_pair_headers : list string) : option Z :=
  match status with
  | IDLE =>
      let required := payload_bytes metadata_filename
                        key_value_pair_headers in
      if required <=? available then Some 0
      else Some (required - available)
  | _ => None
  end.

End Allocate.

End Attempter.

(* ===================================================================== *)
(** * Properties *)
(* ===================================================================== *)

Import SysExits Base InstallPlanH Client KeyValueStore StatusUtils Attempter.

(** ** The install plan *)

(** C5: a freshly constructed [InstallPlan] has [switch_slot_on_reboot],
    [run_post_install] and [write_verity] set, and
    [hash_checks_mandatory], [powerwash_required], [spl_downgrade] and
    [batched_writes] clear. *)
Theorem InstallPlan_default_policy_flags :
  switch_slot_on_reboot InstallPlan_default = true
  /\ run_post_install InstallPlan_default = true
  /\ write_verity InstallPlan_default = true
  /\ hash_checks_mandatory InstallPlan_default = false
  /\ powerwash_required InstallPlan_default = false
  /\ spl_downgrade InstallPlan_default = false
  /\ batched_writes InstallPlan_default = false.
Proof. repeat split. Qed.

(** C9: [InstallPlanAction::PerformAction] puts its plan, unchanged, in
    the output pipe when one is attached and touches no other pipe; it
    sets no output otherwise; in both cases it completes, once, with
    [ErrorCode::kSuccess]. *)
Theorem PerformAction_emits_plan_and_succeeds :
  forall (a : InstallPlanAction) (w : Processor),
    (forall p, out_pipe_ a = Some p ->
       pipes (PerformAction a w) p = install_plan_ a
       /\ forall q, q <> p -> pipes (PerformAction a w) q = pipes w q)
    /\ (out_pipe_ a = None ->
        forall q, pipes (PerformAction a w) q = pipes w q)
    /\ action_complete (PerformAction a w)
       = (action_complete w ++ [("InstallPlanAction", ErrorCode.kSuccess)])%list.
Proof.
  intros a w. unfold PerformAction, HasOutputPipe, SetOutputObject.
  destruct (out_pipe_ a) as [p0|] eqn:Hout; simpl.
  - split; [|split]; try discriminate; try reflexivity.
    intros p Hp. injection Hp as <-. split.
    + now rewrite Nat.eqb_refl.
    + intros q Hne. destruct (Nat.eqb_spec q p0); [contradiction | reflexivity].
  - split; [|split]; try discriminate; reflexivity.
Qed.

(** A plan as the coordinator may hand it over: a resumed update that
    does not switch slots. *)
Definition sample_plan : InstallPlan := {|
  is_resume := true;
  vabc_none := false;
  disable_vabc := false;
  download_url := "file:///data/ota_package/update.zip";
  version := "";
  payloads := [Payload_default];
  source_slot := 0;
  target_slot := 1;
  partitions := [];
  hash_checks_mandatory := true;
  powerwash_required := false;
  spl_downgrade := false;
  switch_slot_on_reboot := false;
  run_post_install := true;
  write_verity := true;
  public_key_rsa := "";
  untouched_dynamic_partitions := [];
  batched_writes := false;
  enable_threading := None
|}.

Definition idle_processor : Processor := {|
  pipes := fun _ => InstallPlan_default;
  action_complete := []
|}.

Lemma PerformAction_emits_plan_and_succeeds_witness :
  pipes (PerformAction {| install_plan_ := sample_plan; out_pipe_ := Some 1%nat |}
           idle_processor) 1%nat = sample_plan
  /\ pipes (PerformAction {| install_plan_ := sample_plan; out_pipe_ := Some 1%nat |}
              idle_processor) 0%nat = InstallPlan_default
  /\ (forall q, pipes (PerformAction {| install_plan_ := sample_plan;
                                        out_pipe_ := None |} idle_processor) q
                = InstallPlan_default).
Proof.
  destruct (PerformAction_emits_plan_and_succeeds
              {| install_plan_ := sample_plan; out_pipe_ := Some 1%nat |}
              idle_processor) as [Hsome _].
  destruct (Hsome 1%nat eq_refl) as [Hp Hq].
  destruct (PerformAction_emits_plan_and_succeeds
              {| install_plan_ := sample_plan; out_pipe_ := None |}
              idle_processor) as [_ [Hnone _]].
  split; [exact Hp | split].
  - apply (Hq 0%nat). discriminate.
  - intros q. apply (Hnone eq_refl q).
Defined.

(** ** The client *)

Lemma loop_post_quit code c :
  quit_tasks c = [] -> loop (post_quit code c) = Exited code.
Proof. intros H. unfold loop, post_quit; simpl. now rewrite H. Qed.

Lemma deliver_posts env error_code c :
  PostTask env = true -> quit_tasks c = [] ->
  deliver env error_code c
  = Exited (if (error_code =? ErrorCode.kSuccess)
               || (error_code =? ErrorCode.kUpdatedButNotActive)
            then EX_OK else 1).
Proof.
  intros Hpost Hq. unfold deliver, onPayloadApplicationComplete, ExitWhenIdle.
  rewrite Hpost; simpl. apply loop_post_quit. exact Hq.
Qed.

(** C1: a client waiting on its message loop that receives
    [onPayloadApplicationComplete(error_code)] exits with 0 if and only if
    the code is [kSuccess] (0) or [kUpdatedButNotActive] (52), and with 1
    for every other code. *)
Theorem onPayloadApplicationComplete_exit_code :
  forall (env : Environment) (error_code : Z) (c : State),
    PostTask env = true ->
    quit_tasks c = [] ->
    (deliver env error_code c = Exited 0
     <-> (error_code = 0 \/ error_code = 52))
    /\ (error_code <> 0 -> error_code <> 52 ->
        deliver env error_code c = Exited 1).
Proof.
  intros env error_code c Hpost Hq.
  rewrite (deliver_posts env error_code c Hpost Hq).
  unfold ErrorCode.kSuccess, ErrorCode.kUpdatedButNotActive, EX_OK.
  destruct (Z.eqb_spec error_code 0) as [E0|N0];
    destruct (Z.eqb_spec error_code 52) as [E52|N52]; simpl;
    (split; [split|]); intros; try tauto; try lia; try discriminate;
    reflexivity.
Qed.

Lemma onPayloadApplicationComplete_exit_code_witness :
  deliver env_ok 52 State_init = Exited 0
  /\ deliver env_ok 0 State_init = Exited 0
  /\ deliver env_ok 1 State_init = Exited 1
  /\ deliver env_ok (-1) State_init = Exited 1.
Proof.
  destruct (onPayloadApplicationComplete_exit_code env_ok 52 State_init
              eq_refl eq_refl) as [[_ H52] _].
  destruct (onPayloadApplicationComplete_exit_code env_ok 0 State_init
              eq_refl eq_refl) as [[_ H0] _].
  destruct (onPayloadApplicationComplete_exit_code env_ok 1 State_init
              eq_refl eq_refl) as [_ H1].
  destruct (onPayloadApplicationComplete_exit_code env_ok (-1) State_init
              eq_refl eq_refl) as [_ Hm].
  split; [apply H52; right; reflexivity|].
  split; [apply H0; left; reflexivity|].
  split; [apply H1; lia | apply Hm; lia].
Defined.

(** The exit codes that a run of [OnInit] can produce besides 0 and 1:
    the exception code of an answer of the service that is not ok. *)
Definition failed_call_code (F : Flags) (service : IUpdateEngine) (code : Z)
  : Prop :=
  exists st, In st (answers F service) /\ isOk st = false
             /\ code = exceptionCode st.

(** The failures that the client answers with the exit code 1: the
    usage errors it checks, a service that cannot be found or bound to, a
    message loop that refuses the exit task. *)
Definition generic_failure (env : Environment) (argc : Z)
    (args : list string) (F : Flags) : Prop :=
  argc = 1
  \/ args <> []
  \/ getService env <> android_OK
  \/ PostTask env = false
  \/ (FLAGS_follow F = true
      /\ (isOk (fst (bind (service_ env))) = false
          \/ snd (bind (service_ env)) = false))
  \/ (String.eqb (FLAGS_switch_slot F) UNSPECIFIED_FLAG = false
      /\ String.eqb (FLAGS_switch_slot F) "true" = false
      /\ String.eqb (FLAGS_switch_slot F) "false" = false).

Lemma ExitWhenIdle_codes env code c r c' :
  ExitWhenIdle env code c = (r, c') ->
  (r = 1 /\ c' = c /\ PostTask env = false)
  \/ (r = EX_OK /\ c' = post_quit code c).
Proof.
  unfold ExitWhenIdle. destruct (PostTask env); simpl; intros H;
    injection H as <- <-; auto.
Qed.

Lemma ExitWhenIdle_Status_codes env st c r c' :
  ExitWhenIdle_Status env st c = (r, c') ->
  (r = 1 /\ PostTask env = false)
  \/ (r = EX_OK /\ isOk st = true /\ c' = post_quit EX_OK c)
  \/ (r = EX_OK /\ isOk st = false
      /\ c' = post_quit (exceptionCode st) (LOG (LogStatus st) c)).
Proof.
  unfold ExitWhenIdle_Status. destruct (isOk st) eqn:Hok; intros H;
    apply ExitWhenIdle_codes in H; destruct H as [[-> [-> Hp]] | [-> ->]];
    auto.
Qed.

(** What [Run] makes of a result of [OnInit]. *)
Definition exit_of (r : Z * State) : Outcome :=
  if negb (fst r =? EX_OK) then Exited (fst r) else loop (snd r).

(** The outcomes of a run: when it exits, it does so with 0, with 1 for
    a generic failure [G], or with the code of a failed call. *)
Definition allowed (G : Prop) (F : Flags) (service : IUpdateEngine)
    (o : Outcome) : Prop :=
  match o with
  | Exited code =>
      code = EX_OK \/ (code = 1 /\ G) \/ failed_call_code F service code
  | Waiting _ => True
  end.

Section Allowed.

Variable env : Environment.
Variable F : Flags.
Variable G : Prop.
Hypothesis refused_task : PostTask env = false -> G.

Lemma allowed_ExitWhenIdle_Status st c :
  quit_tasks c = [] ->
  In st (answers F (service_ env)) ->
  allowed G F (service_ env) (exit_of (ExitWhenIdle_Status env st c)).
Proof.
  intros Hq Hin. destruct (ExitWhenIdle_Status env st c) as [r c'] eqn:E.
  apply ExitWhenIdle_Status_codes in E.
  destruct E as [[-> Hp] | [[-> [Hok ->]] | [-> [Hok ->]]]];
    unfold exit_of; simpl.
  - right; left; auto.
  - unfold loop, post_quit; simpl. rewrite Hq; simpl. left; reflexivity.
  - unfold loop, post_quit; simpl. rewrite Hq; simpl. right; right.
    exists st. auto.
Qed.

Lemma allowed_ExitWhenIdle code c :
  quit_tasks c = [] -> code = EX_OK \/ (code = 1 /\ G) ->
  allowed G F (service_ env) (exit_of (ExitWhenIdle env code c)).
Proof.
  intros Hq Hcode. unfold ExitWhenIdle, exit_of.
  destruct (PostTask env) eqn:Hp; simpl.
  - unfold loop, post_quit; simpl. rewrite Hq; simpl. tauto.
  - right; left; auto.
Qed.

(** The exit goes through [ExitWhenIdle(const Status&)] with one of the
    answers of the service. *)
Ltac exit_with_answer Hq :=
  apply allowed_ExitWhenIdle_Status; [exact Hq | simpl; tauto].

(** [OnInit] returns [EX_OK] without posting a task: the loop waits. *)
Ltac keeps_waiting Hq :=
  unfold exit_of; simpl; unfold loop; simpl; now rewrite Hq.

Lemma allowed_OnInit_tail keep c :
  quit_tasks c = [] ->
  allowed G F (service_ env) (exit_of (OnInit_tail env F keep c)).
Proof.
  intros Hq. unfold OnInit_tail.
  destruct (FLAGS_verify F).
  { destruct (verifyPayloadApplicable _ _) as [st ap] eqn:E.
    apply allowed_ExitWhenIdle_Status; [exact Hq|].
    unfold answers. rewrite E. simpl. tauto. }
  destruct (FLAGS_allocate F).
  { destruct (allocateSpaceForPayload _ _ _) as [st ret] eqn:E.
    apply allowed_ExitWhenIdle_Status.
    - destruct (isOk st); [destruct (ret =? 0)|]; exact Hq.
    - unfold answers. rewrite E. simpl. tauto. }
  destruct (FLAGS_merge F).
  - destruct (isOk (cleanupSuccessfulUpdate (service_ env))) eqn:Hc; simpl;
      [|exit_with_answer Hq].
    destruct (FLAGS_perf_mode F); [exit_with_answer Hq|].
    destruct (FLAGS_update F); simpl; [|keeps_waiting Hq].
    destruct (isOk (applyPayload _ _ _ _ _)) eqn:Ha; simpl;
      [keeps_waiting Hq | exit_with_answer Hq].
  - destruct (FLAGS_perf_mode F); [exit_with_answer Hq|].
    destruct (FLAGS_update F); simpl.
    + destruct (isOk (applyPayload _ _ _ _ _)) eqn:Ha; simpl;
        [|exit_with_answer Hq].
      destruct keep; simpl;
        [keeps_waiting Hq | apply allowed_ExitWhenIdle; auto].
    + destruct keep; simpl;
        [keeps_waiting Hq | apply allowed_ExitWhenIdle; auto].
Qed.

Lemma allowed_OnInit_commands keep c :
  quit_tasks c = [] ->
  (String.eqb (FLAGS_switch_slot F) UNSPECIFIED_FLAG = false ->
   String.eqb (FLAGS_switch_slot F) "true" = false ->
   String.eqb (FLAGS_switch_slot F) "false" = false -> G) ->
  allowed G F (service_ env) (exit_of (OnInit_commands env F keep c)).
Proof.
  intros Hq Hslot. unfold OnInit_commands.
  destruct (FLAGS_suspend F); [exit_with_answer Hq|].
  destruct (FLAGS_resume F); [exit_with_answer Hq|].
  destruct (FLAGS_cancel F); [exit_with_answer Hq|].
  destruct (FLAGS_reset_status F); [exit_with_answer Hq|].
  destruct (String.eqb (FLAGS_trigger_postinstall F) UNSPECIFIED_FLAG);
    [|exit_with_answer Hq].
  cbn [negb].
  destruct (String.eqb (FLAGS_switch_slot F) UNSPECIFIED_FLAG) eqn:Hu;
    cbn [negb]; [apply allowed_OnInit_tail; exact Hq|].
  destruct (String.eqb (FLAGS_switch_slot F) "true") eqn:Ht; cbn [negb andb].
  - destruct (FLAGS_follow F); cbn [negb];
      [apply allowed_OnInit_tail; exact Hq | exit_with_answer Hq].
  - destruct (String.eqb (FLAGS_switch_slot F) "false") eqn:Hf; cbn [negb].
    + exit_with_answer Hq.
    + unfold exit_of; simpl. right; left. auto.
Qed.

End Allowed.

Lemma allowed_OnInit env argc args F :
  Daemon_OnInit env = EX_OK ->
  allowed (generic_failure env argc args F) F (service_ env)
    (exit_of (OnInit env argc args F State_init)).
Proof.
  intros Hd. unfold OnInit. rewrite Hd. simpl.
  destruct (Z.eqb_spec argc 1) as [Hargc|_];
    [right; left; unfold generic_failure; auto|].
  destruct args as [|front args'];
    [|right; left; unfold generic_failure; split; [reflexivity|];
      right; left; discriminate].
  assert (Hrefused : PostTask env = false -> generic_failure env argc [] F)
    by (unfold generic_failure; tauto).
  assert (Hslot : String.eqb (FLAGS_switch_slot F) UNSPECIFIED_FLAG = false ->
                  String.eqb (FLAGS_switch_slot F) "true" = false ->
                  String.eqb (FLAGS_switch_slot F) "false" = false ->
                  generic_failure env argc [] F)
    by (unfold generic_failure; tauto).
  destruct (Z.eqb_spec (getService env) android_OK) as [_|Hsvc]; simpl.
  2:{ apply allowed_ExitWhenIdle; [exact Hrefused | reflexivity |].
      right. split; [reflexivity|]. unfold generic_failure. tauto. }
  destruct (FLAGS_follow F) eqn:Hf.
  - destruct (bind (service_ env)) as [st bound] eqn:Hb.
    destruct (isOk st) eqn:Hok; [destruct bound eqn:Hbound|]; cbn [negb orb].
    + apply allowed_OnInit_commands; [exact Hrefused | reflexivity | exact Hslot].
    + right; left. split; [reflexivity|]. unfold generic_failure.
      rewrite Hb. cbn [fst snd]. tauto.
    + right; left. split; [reflexivity|]. unfold generic_failure.
      rewrite Hb. cbn [fst snd]. tauto.
  - apply allowed_OnInit_commands; [exact Hrefused | reflexivity | exact Hslot].
Qed.

(** A service that refuses [suspend] with the binder exception
    [EX_ILLEGAL_STATE] (-5). *)
Definition env_suspend_refused : Environment := {|
  Daemon_OnInit := EX_OK;
  getService := android_OK;
  PostTask := true;
  service_ := {|
    bind := (Status_ok, true);
    suspend := {| exceptionCode := -5 |};
    resume := Status_ok;
    cancel := Status_ok;
    resetStatus := Status_ok;
    triggerPostinstall := fun _ => Status_ok;
    setShouldSwitchSlotOnReboot := fun _ => Status_ok;
    resetShouldSwitchSlotOnReboot := Status_ok;
    verifyPayloadApplicable := fun _ => (Status_ok, true);
    allocateSpaceForPayload := fun _ _ => (Status_ok, 0);
    cleanupSuccessfulUpdate := Status_ok;
    setPerformanceMode := fun _ => Status_ok;
    applyPayload := fun _ _ _ _ => Status_ok
  |}
|}.

Definition Flags_suspend : Flags := {|
  FLAGS_update := false;
  FLAGS_payload := "http://127.0.0.1:8080/payload";
  FLAGS_offset := 0;
  FLAGS_size := 0;
  FLAGS_headers := "";
  FLAGS_verify := false;
  FLAGS_allocate := false;
  FLAGS_metadata := "/data/ota_package/metadata";
  FLAGS_switch_slot := UNSPECIFIED_FLAG;
  FLAGS_trigger_postinstall := UNSPECIFIED_FLAG;
  FLAGS_suspend := true;
  FLAGS_resume := false;
  FLAGS_cancel := false;
  FLAGS_reset_status := false;
  FLAGS_follow := false;
  FLAGS_merge := false;
  FLAGS_perf_mode := false
|}.

(** ** Splitting the headers *)

Lemma contains_LF c :
  contains LF c = Ascii.eqb c (ascii_of_nat 10).
Proof. unfold LF; simpl. apply orb_false_r. Qed.

Lemma pieces_not_nil separators str : pieces separators str <> [].
Proof.
  destruct str as [|c rest]; simpl; [discriminate|].
  destruct (contains separators c); [discriminate|].
  destruct (pieces separators rest); discriminate.
Qed.

Lemma concat_cons sep x xs :
  xs <> [] -> String.concat sep (x :: xs) = x ++ sep ++ String.concat sep xs.
Proof. destruct xs; [contradiction | reflexivity]. Qed.

(** Joining the pieces with the separator gives the input back. *)
Lemma concat_pieces_LF str : String.concat LF (pieces LF str) = str.
Proof.
  induction str as [|c rest IH]; cbn [pieces]; [reflexivity|].
  rewrite contains_LF.
  destruct (Ascii.eqb_spec c (ascii_of_nat 10)) as [->|Hc].
  - rewrite concat_cons by apply pieces_not_nil. rewrite IH. reflexivity.
  - pose proof (pieces_not_nil LF rest) as Hnn.
    destruct (pieces LF rest) as [|p ps]; [contradiction|].
    destruct ps as [|p' ps'].
    + simpl in *. now rewrite IH.
    + rewrite concat_cons in IH by discriminate.
      rewrite concat_cons by discriminate.
      change (String c (p ++ LF ++ String.concat LF (p' :: ps'))
              = String c rest).
      now rewrite IH.
Qed.

(** No piece holds a line feed. *)
Lemma pieces_single_line str :
  Forall (fun l => single_line l = true) (pieces LF str).
Proof.
  induction str as [|c rest IH]; cbn [pieces].
  - constructor; [reflexivity | constructor].
  - rewrite contains_LF.
    destruct (Ascii.eqb c (ascii_of_nat 10)) eqn:Hc.
    + constructor; [reflexivity | exact IH].
    + destruct (pieces LF rest) as [|p ps].
      * constructor; [simpl; now rewrite Hc | constructor].
      * inversion IH as [|? ? Hp Hps]; subst.
        constructor; [simpl; now rewrite Hc | exact Hps].
Qed.

(** A string without line feed is one piece. *)
Lemma pieces_of_single_line h : single_line h = true -> pieces LF h = [h].
Proof.
  induction h as [|c rest IH]; cbn [pieces single_line]; [reflexivity|].
  rewrite contains_LF. intros H. apply andb_true_iff in H as [Hc Hrest].
  apply negb_true_iff in Hc. rewrite Hc, (IH Hrest). reflexivity.
Qed.

Lemma SplitString_keep_nonempty arg :
  SplitString arg LF KEEP_WHITESPACE SPLIT_WANT_NONEMPTY
  = filter (fun l => negb (empty l)) (pieces LF arg).
Proof.
  unfold SplitString. destruct arg as [|c rest]; [reflexivity|].
  cbv [empty]. now rewrite map_id.
Qed.

(** C10: [ParseHeaders] splits its argument at the line feeds and nowhere
    else (the pieces hold no line feed and, joined by line feeds, give the
    argument back), drops exactly the empty pieces, and passes every other
    piece on as it is and in order; in particular a non-empty line is
    passed through whatever it holds, with or without [=]. *)
Theorem ParseHeaders_splits_on_newlines_only :
  (forall arg : string,
     String.concat LF (pieces LF arg) = arg
     /\ Forall (fun l => single_line l = true) (pieces LF arg)
     /\ ParseHeaders arg
        = map String16_of (filter (fun l => negb (empty l)) (pieces LF arg)))
  /\ (forall h : string,
        single_line h = true -> empty h = false ->
        ParseHeaders h = [String16_of h]).
Proof.
  split.
  - intros arg. split; [apply concat_pieces_LF|].
    split; [apply pieces_single_line|].
    unfold ParseHeaders. now rewrite SplitString_keep_nonempty.
  - intros h Hline Hne. unfold ParseHeaders.
    rewrite SplitString_keep_nonempty, (pieces_of_single_line h Hline).
    simpl. now rewrite Hne.
Qed.

(** Headers with an empty line, a line that is no [KEY=VALUE] pair and
    keeps its blanks and its carriage return, and no final line feed. *)
Definition sample_headers : string :=
  "FILE_HASH=abc" ++ LF ++ LF ++ "  not a header "
  ++ String (ascii_of_nat 13) LF ++ "=" ++ LF.

Lemma ParseHeaders_splits_on_newlines_only_witness :
  ParseHeaders sample_headers
  = [String16_of "FILE_HASH=abc";
     String16_of ("  not a header " ++ String (ascii_of_nat 13) "");
     String16_of "="]
  /\ ParseHeaders " no equals sign " = [String16_of " no equals sign "].
Proof.
  destruct ParseHeaders_splits_on_newlines_only as [Hsplit Hline].
  destruct (Hsplit sample_headers) as [_ [_ Heq]].
  split.
  - rewrite Heq. reflexivity.
  - apply Hline; reflexivity.
Defined.

(** ** The status export *)

Definition bool_value (b : bool) : string :=
  if b then kTrueValue else kFalseValue.

(** The eight [SetString]/[SetBoolean] calls leave eight entries, which
    the map keeps in the order of their keys. *)
Lemma status_store_entries fmt s :
  status_store fmt s
  = [ (kCurrentOp, UpdateStatusToString (status s));
      (kIsEnterpriseRollback, bool_value (is_enterprise_rollback s));
      (kIsInstall, bool_value (is_install s));
      (kLastCheckedTime, format_int (last_checked_time s));
      (kNewSize, format_int (new_size_bytes s));
      (kNewVersion, new_version s);
      (kProgress, fmt (progress s));
      (kWillPowerwashAfterReboot, bool_value (will_powerwash_after_reboot s)) ].
Proof. reflexivity. Qed.

(** *** Lines of a saved store *)

Definition entry_line (entry : string * string) : string :=
  fst entry ++ String "=" (snd entry).

Lemma append_assoc_string (a b c : string) : (a ++ b) ++ c = a ++ (b ++ c).
Proof. induction a as [|x a IH]; simpl; [reflexivity | now rewrite IH]. Qed.

Lemma SaveToString_cons entry rest :
  SaveToString (entry :: rest)
  = entry_line entry ++ LF ++ SaveToString rest.
Proof.
  destruct entry as [k v]. unfold entry_line; simpl.
  rewrite append_assoc_string. reflexivity.
Qed.

Lemma single_line_app a b :
  single_line (a ++ b) = single_line a && single_line b.
Proof.
  induction a as [|x a IH]; simpl; [reflexivity|].
  rewrite IH. now rewrite andb_assoc.
Qed.

(** A line followed by a line feed is the first piece. *)
Lemma pieces_line l rest :
  single_line l = true ->
  pieces LF (l ++ LF ++ rest) = l :: pieces LF rest.
Proof.
  induction l as [|c l IH]; intros Hl.
  - reflexivity.
  - cbn [single_line] in Hl. apply andb_true_iff in Hl as [Hc Hl].
    apply negb_true_iff in Hc.
    change ((String c l ++ LF ++ rest)) with (String c (l ++ LF ++ rest)).
    cbn [pieces]. rewrite contains_LF, Hc, (IH Hl). reflexivity.
Qed.

Lemma pieces_SaveToString store :
  Forall (fun entry => single_line (entry_line entry) = true) store ->
  pieces LF (SaveToString store) = (map entry_line store ++ [EmptyString])%list.
Proof.
  induction 1 as [|entry rest Hentry _ IH]; [reflexivity|].
  rewrite SaveToString_cons, (pieces_line _ _ Hentry), IH. reflexivity.
Qed.

Lemma SplitString_all data :
  empty data = false ->
  SplitString data LF KEEP_WHITESPACE SPLIT_WANT_ALL = pieces LF data.
Proof.
  intros Hne. unfold SplitString. rewrite Hne, map_id.
  induction (pieces LF data) as [|p ps IH]; simpl; [reflexivity|].
  now rewrite IH.
Qed.

(** *** Loading a line back *)

(** A character that [LoadFromString] leaves in a key: no blank and no
    [=]. *)
Definition key_char (c : ascii) : bool :=
  negb (contains kWhitespaceASCII c) && negb (Ascii.eqb c "=").

Fixpoint key_chars (k : string) : bool :=
  match k with
  | EmptyString => true
  | String c k' => key_char c && key_chars k'
  end.

(** A key that a line can start with: not empty, no [#] in front, and made
    of key characters. *)
Definition plain_key (k : string) : bool :=
  negb (empty k) && negb (starts_with_hash k) && key_chars k.

(** What a value must be for one line to hold it. *)
Definition plain_value (v : string) : bool :=
  single_line v && negb (ends_with_backslash v).

Lemma SplitAtFirst_key k v :
  key_chars k = true ->
  SplitAtFirst (k ++ String "=" v) "=" = (true, k, v).
Proof.
  induction k as [|c k IH]; intros Hk.
  - reflexivity.
  - cbn [key_chars] in Hk. apply andb_true_iff in Hk as [Hc Hk].
    unfold key_char in Hc. apply andb_true_iff in Hc as [_ Hc].
    apply negb_true_iff in Hc.
    change (String c k ++ String "=" v) with (String c (k ++ String "=" v)).
    cbn [SplitAtFirst]. rewrite Hc, (IH Hk). reflexivity.
Qed.

Lemma TrimTrailing_key k : key_chars k = true -> TrimTrailing k = k.
Proof.
  induction k as [|c k IH]; intros Hk; [reflexivity|].
  cbn [key_chars] in Hk. apply andb_true_iff in Hk as [Hc Hk].
  unfold key_char in Hc. apply andb_true_iff in Hc as [Hc _].
  apply negb_true_iff in Hc.
  cbn [TrimTrailing]. rewrite (IH Hk), Hc. destruct k; reflexivity.
Qed.

(** One well-formed line sets one entry. *)
Lemma load_lines_entry k v rest store :
  plain_key k = true -> ends_with_backslash v = false ->
  load_lines (entry_line (k, v) :: rest) store
  = load_lines rest (SetString k v store).
Proof.
  intros Hkey Hv. unfold plain_key in Hkey.
  apply andb_true_iff in Hkey as [Hkey Hchars].
  apply andb_true_iff in Hkey as [Hne Hhash].
  destruct k as [|c k]; [discriminate|].
  pose proof Hchars as Hc. cbn [key_chars] in Hc.
  apply andb_true_iff in Hc as [Hc _]. unfold key_char in Hc.
  apply andb_true_iff in Hc as [Hws _]. apply negb_true_iff in Hws.
  cbn [starts_with_hash] in Hhash. apply negb_true_iff in Hhash.
  unfold entry_line; cbn [fst snd].
  change (String c k ++ String "=" v) with (String c (k ++ String "=" v)).
  cbn [load_lines TrimLeading]. rewrite Hws.
  cbn [empty starts_with_hash orb]. rewrite Hhash.
  change (String c (k ++ String "=" v)) with (String c k ++ String "=" v).
  rewrite (SplitAtFirst_key _ v Hchars). cbn [negb].
  rewrite (TrimTrailing_key _ Hchars). cbn [empty].
  destruct rest; rewrite Hv; reflexivity.
Qed.

Definition set_entries (entries : list (string * string))
    (store : KeyValueStore.t) : KeyValueStore.t :=
  fold_left (fun st entry => SetString (fst entry) (snd entry) st)
    entries store.

Lemma load_lines_entries entries store :
  Forall (fun entry => plain_key (fst entry) = true
                       /\ ends_with_backslash (snd entry) = false) entries ->
  load_lines (map entry_line entries ++ [EmptyString])%list store
  = Some (set_entries entries store).
Proof.
  intros H. revert store.
  induction H as [|[k v] rest [Hk Hv] _ IH]; intros store.
  - reflexivity.
  - cbn [map app]. rewrite (load_lines_entry k v _ store Hk Hv).
    apply IH.
Qed.

Lemma key_chars_single_line k : key_chars k = true -> single_line k = true.
Proof.
  induction k as [|c k IH]; intros Hk; [reflexivity|].
  cbn [key_chars] in Hk. apply andb_true_iff in Hk as [Hc Hk].
  cbn [single_line]. rewrite (IH Hk), andb_true_r.
  unfold key_char in Hc. apply andb_true_iff in Hc as [Hc _].
  apply negb_true_iff in Hc. apply negb_true_iff.
  destruct (Ascii.eqb_spec c (ascii_of_nat 10)) as [->|]; [|reflexivity].
  discriminate Hc.
Qed.

(** Saving and loading a store of plain keys and one-line values gives
    its entries back. *)
Lemma LoadFromString_SaveToString entries :
  Forall (fun entry => plain_key (fst entry) = true
                       /\ plain_value (snd entry) = true) entries ->
  LoadFromString (SaveToString entries) = Some (set_entries entries []).
Proof.
  intros H. unfold LoadFromString.
  destruct entries as [|entry rest]; [reflexivity|].
  rewrite SplitString_all.
  - rewrite pieces_SaveToString.
    + apply load_lines_entries. eapply Forall_impl; [|exact H].
      intros [k v] [Hk Hv]. cbn [fst snd] in *. split; [exact Hk|].
      unfold plain_value in Hv. apply andb_true_iff in Hv as [_ Hv].
      now apply negb_true_iff in Hv.
    + eapply Forall_impl; [|exact H].
      intros [k v] [Hk Hv]. unfold entry_line; cbn [fst snd] in *.
      rewrite single_line_app. cbn [single_line].
      unfold plain_key in Hk. apply andb_true_iff in Hk as [_ Hk].
      unfold plain_value in Hv. apply andb_true_iff in Hv as [Hv _].
      now rewrite (key_chars_single_line k Hk), Hv.
  - inversion H as [|? ? [Hk _] _]; subst.
    destruct entry as [k v]. cbn [fst] in Hk.
    destruct k; [discriminate Hk | reflexivity].
Qed.

(** *** The values of the export *)

(** Text made of decimal digits and minus signs. *)
Fixpoint decimal_text (s : string) : bool :=
  match s with
  | EmptyString => true
  | String c rest => contains "-0123456789" c && decimal_text rest
  end.

Lemma decimal_char c :
  contains "-0123456789" c = true ->
  Ascii.eqb c (ascii_of_nat 10) = false /\ Ascii.eqb c "\" = false.
Proof.
  destruct c as [[] [] [] [] [] [] [] []]; cbv; intros H;
    try discriminate H; split; reflexivity.
Qed.

Lemma decimal_text_plain s : decimal_text s = true -> plain_value s = true.
Proof.
  unfold plain_value. induction s as [|c s IH]; intros H; [reflexivity|].
  cbn [decimal_text] in H. apply andb_true_iff in H as [Hc Hs].
  destruct (decimal_char c Hc) as [Hlf Hbs].
  specialize (IH Hs). apply andb_true_iff in IH as [IH1 IH2].
  cbn [single_line]. rewrite Hlf, IH1. cbn [negb andb].
  destruct s as [|c' s']; [cbn [ends_with_backslash]; now rewrite Hbs|].
  exact IH2.
Qed.

Lemma string_of_uint_decimal d :
  decimal_text (NilEmpty.string_of_uint d) = true.
Proof. induction d; cbn [NilEmpty.string_of_uint decimal_text]; auto. Qed.

Lemma format_int_decimal n : decimal_text (format_int n) = true.
Proof.
  unfold format_int, NilZero.string_of_int, NilZero.string_of_uint.
  destruct (Z.to_int n) as [d|d]; destruct d;
    try reflexivity;
    try (cbn [decimal_text]; rewrite andb_true_iff; split; [reflexivity|]);
    apply (string_of_uint_decimal (_ d)) || apply string_of_uint_decimal.
Qed.

Lemma format_int_plain n : plain_value (format_int n) = true.
Proof. apply decimal_text_plain, format_int_decimal. Qed.

(** Reading a formatted integer gives the integer. *)
Lemma parse_format_int n : parse_int (format_int n) = Some n.
Proof.
  unfold parse_int, format_int. rewrite NilZero.isi.
  - simpl. now rewrite DecimalZ.of_to.
  - destruct n; simpl; try discriminate.
    intros H. injection H as H. now apply Unsigned.to_uint_nonnil in H.
  - destruct n; simpl; try discriminate.
    intros H. injection H as H. now apply Unsigned.to_uint_nonnil in H.
Qed.

Lemma bool_value_plain b : plain_value (bool_value b) = true.
Proof. destruct b; reflexivity. Qed.

Lemma UpdateStatusToString_plain st :
  plain_value (UpdateStatusToString st) = true.
Proof. destruct st; reflexivity. Qed.

Lemma StringToUpdateStatus_UpdateStatusToString st :
  StringToUpdateStatus (UpdateStatusToString st) = Some st.
Proof. destruct st; reflexivity. Qed.

(** *** Round trip *)

(** A status whose version holds a line feed followed by what reads as
    an entry of the blob. *)
Definition status_with_line_feed : UpdateEngineStatus := {|
  last_checked_time := 156000000;
  progress := 0.5%float;
  new_size_bytes := 888;
  status := IDLE;
  new_version := "12345.0.0" ++ LF ++ "CURRENT_OP=UPDATE_STATUS_DISABLED";
  is_enterprise_rollback := false;
  is_install := false;
  will_powerwash_after_reboot := false
|}.

(** The text of 0.5, and a reader of that text. *)
Definition format_half (x : float) : string := "0.5".
Definition parse_half (s : string) : option float :=
  if String.eqb s "0.5" then Some 0.5%float else None.

(** C3 as stated fails: the blob of [status_with_line_feed] loads, but
    the store it loads into has [UPDATE_STATUS_DISABLED] for [CURRENT_OP]
    and a shortened [NEW_VERSION]: the fields are not recovered. *)
Lemma line_feed_in_new_version_breaks_round_trip :
  ~ recovers_every_field format_half parse_half status_with_line_feed.
Proof.
  intros [store [Hload [_ [_ [_ [Hstatus _]]]]]].
  vm_compute in Hload. injection Hload as <-.
  vm_compute in Hstatus. discriminate Hstatus.
Qed.

(** C3, amended: when [new_version] holds no line feed and does not end
    in a backslash, loading the blob of [UpdateEngineStatusToString] and
    reading each key recovers [last_checked_time], [progress],
    [new_size_bytes], [status], [new_version], [is_enterprise_rollback],
    [is_install] and [will_powerwash_after_reboot]. The text of the
    [double] is taken as [std::format] gives it: one line, no backslash
    at its end, and read back to the same value by the reader in use. *)
Theorem UpdateEngineStatusToString_round_trip :
  forall (format_double : float -> string)
         (parse_double : string -> option float) (s : UpdateEngineStatus),
    single_line (new_version s) = true ->
    ends_with_backslash (new_version s) = false ->
    single_line (format_double (progress s)) = true ->
    ends_with_backslash (format_double (progress s)) = false ->
    parse_double (format_double (progress s)) = Some (progress s) ->
    recovers_every_field format_double parse_double s.
Proof.
  intros fmt rd s Hv1 Hv2 Hp1 Hp2 Hrd.
  exists (status_store fmt s). split.
  - unfold UpdateEngineStatusToString. rewrite status_store_entries.
    rewrite LoadFromString_SaveToString; [reflexivity|].
    repeat (constructor; [cbn [fst snd]; split; [reflexivity|] |]);
      try constructor;
      try apply UpdateStatusToString_plain; try apply bool_value_plain;
      try apply format_int_plain;
      unfold plain_value; [rewrite Hv1, Hv2 | rewrite Hp1, Hp2]; reflexivity.
  - rewrite status_store_entries.
    unfold GetInt, GetDouble, GetUpdateStatus, GetBoolean.
    cbn [GetString String.eqb Ascii.eqb Bool.eqb kCurrentOp
         kIsEnterpriseRollback kIsInstall kLastCheckedTime kNewSize
         kNewVersion kProgress kWillPowerwashAfterReboot].
    rewrite !parse_format_int, Hrd, StringToUpdateStatus_UpdateStatusToString.
    repeat split;
      [destruct (is_enterprise_rollback s) | destruct (is_install s)
      | destruct (will_powerwash_after_reboot s)]; reflexivity.
Qed.

Definition status_sample : UpdateEngineStatus := {|
  last_checked_time := 156000000;
  progress := 0.5%float;
  new_size_bytes := 888;
  status := CHECKING_FOR_UPDATE;
  new_version := "12345.0.0";
  is_enterprise_rollback := true;
  is_install := true;
  will_powerwash_after_reboot := true
|}.

Lemma UpdateEngineStatusToString_round_trip_witness :
  recovers_every_field format_half parse_half status_sample.
Proof.
  apply (UpdateEngineStatusToString_round_trip format_half parse_half
           status_sample); reflexivity.
Defined.

(** ** The coordinator *)

(** C2: on restart with [update_completed_marker] present, the
    coordinator reports [UPDATED_NEED_REBOOT] when the active slot is the
    target slot of the last attempt; when the active slot is still the
    source slot of that attempt, it reports [IDLE] and the last attempt
    counts as rolled back. *)
Theorem restart_reports_need_reboot_or_rolled_back :
  forall (prefs_ : Prefs) (marker : Marker) (old_slot current_slot : Slot),
    update_completed_marker prefs_ = Some marker ->
    old_slot <> TARGET_SLOT marker ->
    (current_slot = TARGET_SLOT marker ->
     Init_status prefs_ current_slot = UPDATED_NEED_REBOOT)
    /\ (current_slot = old_slot ->
        Init_status prefs_ current_slot = IDLE
        /\ GetOTAUpdateResult prefs_ current_slot = OTAResult.ROLLED_BACK).
Proof.
  intros prefs_ marker old_slot current_slot Hmarker Hdistinct.
  unfold Init_status, GetOTAUpdateResult. rewrite Hmarker. split.
  - intros ->. now rewrite Z.eqb_refl.
  - intros ->. destruct (Z.eqb_spec old_slot (TARGET_SLOT marker));
      [contradiction | split; reflexivity].
Qed.

(** The marker of an update from slot 0 to slot 1. *)
Definition prefs_after_update : Prefs := {|
  update_completed_marker :=
    Some {| PAYLOAD_FP := "fingerprint"; TARGET_SLOT := 1 |}
|}.

Lemma restart_reports_need_reboot_or_rolled_back_witness :
  Init_status prefs_after_update 1 = UPDATED_NEED_REBOOT
  /\ Init_status prefs_after_update 0 = IDLE
  /\ GetOTAUpdateResult prefs_after_update 0 = OTAResult.ROLLED_BACK.
Proof.
  destruct (restart_reports_need_reboot_or_rolled_back prefs_after_update
              {| PAYLOAD_FP := "fingerprint"; TARGET_SLOT := 1 |} 0 1
              eq_refl ltac:(discriminate)) as [Htarget _].
  destruct (restart_reports_need_reboot_or_rolled_back prefs_after_update
              {| PAYLOAD_FP := "fingerprint"; TARGET_SLOT := 1 |} 0 0
              eq_refl ltac:(discriminate)) as [_ Hold].
  split; [apply Htarget; reflexivity | apply Hold; reflexivity].
Defined.

Lemma step_monotonic threshold_ms threshold_progress now1 now2 e c :
  TimeTicks_Now now1 = TimeTicks_Now now2 ->
  step threshold_ms threshold_progress now1 e c
  = step threshold_ms threshold_progress now2 e c.
Proof.
  intros Hticks. destruct e as [st|p]; cbn [step].
  - unfold SetStatusAndNotify. now rewrite Hticks.
  - unfold ProgressUpdate, SetStatusAndNotify. now rewrite Hticks.
Qed.

(** C6: two executions that differ solely in the readings of the wall
    clock (same events, same readings of the monotonic clock) deliver the
    same sequence of status notifications, from any state of the
    coordinator and for any throttle constants. *)
Theorem notifications_independent_of_wall_clock :
  forall (threshold_ms : Z) (threshold_progress : float)
         (execution1 execution2 : list (Clocks * Event)) (c : Coordinator),
    monotonic_view execution1 = monotonic_view execution2 ->
    notifications threshold_ms threshold_progress execution1 c
    = notifications threshold_ms threshold_progress execution2 c.
Proof.
  intros N D execution1.
  induction execution1 as [|[now1 e1] rest1 IH];
    intros [|[now2 e2] rest2] c Hview; try discriminate Hview.
  - reflexivity.
  - cbn [monotonic_view map] in Hview.
    injection Hview as Hticks He Hrest. subst e2.
    cbn [notifications]. rewrite (step_monotonic N D now1 now2 e1 c Hticks).
    destruct (step N D now2 e1 c) as [c' sent].
    f_equal. apply IH. exact Hrest.
Qed.

(** A download in which the wall clock runs on, and the same download
    with the wall clock set back by an hour after the first report. *)
Definition execution_steady : list (Clocks * Event) :=
  [ ({| Time_Now := 5000000; TimeTicks_Now := 1000 |}, StateChange DOWNLOADING);
    ({| Time_Now := 5000100; TimeTicks_Now := 1100 |}, Progress 0.25%float);
    ({| Time_Now := 5000400; TimeTicks_Now := 1400 |}, Progress 0.5%float);
    ({| Time_Now := 5000700; TimeTicks_Now := 1700 |}, Progress 0.50390625%float);
    ({| Time_Now := 5000900; TimeTicks_Now := 1900 |}, StateChange VERIFYING) ].

Definition execution_clock_set_back : list (Clocks * Event) :=
  [ ({| Time_Now := 5000000; TimeTicks_Now := 1000 |}, StateChange DOWNLOADING);
    ({| Time_Now := 1400100; TimeTicks_Now := 1100 |}, Progress 0.25%float);
    ({| Time_Now := 1400400; TimeTicks_Now := 1400 |}, Progress 0.5%float);
    ({| Time_Now := 1400700; TimeTicks_Now := 1700 |}, Progress 0.50390625%float);
    ({| Time_Now := 1400900; TimeTicks_Now := 1900 |}, StateChange VERIFYING) ].

Lemma notifications_independent_of_wall_clock_witness :
  notifications 200 0.0078125%float execution_steady Coordinator_init
  = notifications 200 0.0078125%float execution_clock_set_back Coordinator_init
  /\ notifications 200 0.0078125%float execution_clock_set_back Coordinator_init
     = [ (DOWNLOADING, 0%float); (DOWNLOADING, 0.5%float);
         (VERIFYING, 0.5%float) ].
Proof.
  split.
  - apply (notifications_independent_of_wall_clock 200 0.0078125%float
             execution_steady execution_clock_set_back Coordinator_init).
    reflexivity.
  - reflexivity.
Defined.

(** C7: called in state [IDLE], [AllocateSpaceForPayload] returns 0 when
    the payload fits and otherwise the shortfall, the positive number of
    bytes that the available space lacks; the client takes 0 for "space
    allocated" and any other value for the bytes still required. *)
Theorem AllocateSpaceForPayload_zero_or_shortfall :
  forall (payload_bytes : string -> list string -> Z) (available : Z)
         (metadata_filename : string) (headers : list string),
    (payload_bytes metadata_filename headers <= available ->
     AllocateSpaceForPayload payload_bytes IDLE available metadata_filename
       headers = Some 0)
    /\ (available < payload_bytes metadata_filename headers ->
        exists shortfall,
          AllocateSpaceForPayload payload_bytes IDLE available
            metadata_filename headers = Some shortfall
          /\ 0 < shortfall
          /\ available + shortfall = payload_bytes metadata_filename headers)
    /\ (forall env F c ret,
          FLAGS_verify F = false -> FLAGS_allocate F = true ->
          allocateSpaceForPayload (service_ env)
            (String16_of (FLAGS_metadata F)) (ParseHeaders (FLAGS_headers F))
          = (Status_ok, ret) ->
          log (snd (OnInit_tail env F false c))
          = (log c ++ [if ret =? 0 then LogAllocated
                       else LogInsufficientSpace ret])%list).
Proof.
  intros payload_bytes available metadata_filename headers.
  unfold AllocateSpaceForPayload. split; [|split].
  - intros Hfits. destruct (Z.leb_spec (payload_bytes metadata_filename headers)
                              available); [reflexivity | lia].
  - intros Hshort. destruct (Z.leb_spec (payload_bytes metadata_filename headers)
                               available); [lia|].
    eexists. split; [reflexivity|]. lia.
  - intros env F c ret Hverify Hallocate Hanswer.
    unfold OnInit_tail. rewrite Hverify, Hallocate, Hanswer.
    unfold ExitWhenIdle_Status, ExitWhenIdle. cbn [isOk Status_ok exceptionCode].
    change (EX_NONE =? EX_NONE) with true. cbn iota.
    destruct (PostTask env); destruct (ret =? 0); reflexivity.
Qed.

(** A payload that needs 1000 bytes, and a service that answers the
    allocation request of the client from a device in state [IDLE] with
    400 bytes available. *)
Definition payload_of_1000_bytes (metadata_filename : string)
    (headers : list string) : Z := 1000.

Definition env_short_of_space : Environment := {|
  Daemon_OnInit := EX_OK;
  getService := android_OK;
  PostTask := true;
  service_ := {|
    bind := (Status_ok, true);
    suspend := Status_ok;
    resume := Status_ok;
    cancel := Status_ok;
    resetStatus := Status_ok;
    triggerPostinstall := fun _ => Status_ok;
    setShouldSwitchSlotOnReboot := fun _ => Status_ok;
    resetShouldSwitchSlotOnReboot := Status_ok;
    verifyPayloadApplicable := fun _ => (Status_ok, true);
    allocateSpaceForPayload := fun metadata headers =>
      match metadata with
      | String16_of metadata_filename =>
          match AllocateSpaceForPayload payload_of_1000_bytes IDLE 400
                  metadata_filename
                  (map (fun h => match h with String16_of data => data end)
                     headers) with
          | Some ret => (Status_ok, ret)
          | None => ({| exceptionCode := -8 |}, 0)
          end
      end;
    cleanupSuccessfulUpdate := Status_ok;
    setPerformanceMode := fun _ => Status_ok;
    applyPayload := fun _ _ _ _ => Status_ok
  |}
|}.

Definition Flags_allocate : Flags := {|
  FLAGS_update := false;
  FLAGS_payload := "http://127.0.0.1:8080/payload";
  FLAGS_offset := 0;
  FLAGS_size := 0;
  FLAGS_headers := "FILE_SIZE=1000";
  FLAGS_verify := false;
  FLAGS_allocate := true;
  FLAGS_metadata := "/data/ota_package/metadata";
  FLAGS_switch_slot := UNSPECIFIED_FLAG;
  FLAGS_trigger_postinstall := UNSPECIFIED_FLAG;
  FLAGS_suspend := false;
  FLAGS_resume := false;
  FLAGS_cancel := false;
  FLAGS_reset_status := false;
  FLAGS_follow := false;
  FLAGS_merge := false;
  FLAGS_perf_mode := false
|}.

Lemma AllocateSpaceForPayload_zero_or_shortfall_witness :
  AllocateSpaceForPayload payload_of_1000_bytes IDLE 4096
    "/data/ota_package/metadata" ["FILE_SIZE=1000"] = Some 0
  /\ AllocateSpaceForPayload payload_of_1000_bytes IDLE 400
       "/data/ota_package/metadata" ["FILE_SIZE=1000"] = Some 600
  /\ log (snd (OnInit_tail env_short_of_space Flags_allocate false State_init))
     = [LogInsufficientSpace 600].
Proof.
  destruct (AllocateSpaceForPayload_zero_or_shortfall payload_of_1000_bytes
              4096 "/data/ota_package/metadata" ["FILE_SIZE=1000"])
    as [Hfits _].
  destruct (AllocateSpaceForPayload_zero_or_shortfall payload_of_1000_bytes
              400 "/data/ota_package/metadata" ["FILE_SIZE=1000"])
    as [_ [Hshort Hclient]].
  split; [apply Hfits; unfold payload_of_1000_bytes; lia|].
  split.
  - destruct Hshort as [shortfall [Hret [_ Hsum]]];
      [unfold payload_of_1000_bytes; lia|].
    rewrite Hret. f_equal. unfold payload_of_1000_bytes in Hsum. lia.
  - apply (Hclient env_short_of_space Flags_allocate State_init 600);
      reflexivity.
Defined.

(* ===================================================================== *)
(** * More of the code *)
(* ===================================================================== *)

(** ** install_plan.h: [InstallPlan::Payload::operator==] *)

Module PayloadEq.

Definition InstallPayloadType_eqb (a b : InstallPayloadType) : bool :=
  match a, b with
  | kUnknown, kUnknown | kFull, kFull | kDelta, kDelta => true
  | _, _ => false
  end.

(** [operator==] of two [std::vector]: same size and equal elements. *)
Fixpoint vector_eqb {A : Type} (eqb : A -> A -> bool) (x y : list A) : bool :=
  match x, y with
  | [], [] => true
  | a :: x', b :: y' => eqb a b && vector_eqb eqb x' y'
  | _, _ => false
  end.

(** [Payload::operator==], with the comparisons in the order of the
    source. *)
Definition Payload_eq (this that : Payload) : bool :=
  vector_eqb String.eqb (payload_urls this) (payload_urls that)
  && (size this =? size that)
  && (metadata_size this =? metadata_size that)
  && String.eqb (metadata_signature this) (metadata_signature that)
  && vector_eqb Byte.eqb (hash this) (hash that)
  && InstallPayloadType_eqb (type this) (type that)
  && Bool.eqb (already_applied this) (already_applied that)
  && String.eqb (fp this) (fp that)
  && String.eqb (app_id this) (app_id that).

End PayloadEq.

Import PayloadEq.

Lemma vector_eqb_eq {A : Type} (eqb : A -> A -> bool) :
  (forall a b, eqb a b = true <-> a = b) ->
  forall x y, vector_eqb eqb x y = true <-> x = y.
Proof.
  intros Heqb. induction x as [|a x IH]; destruct y as [|b y]; simpl;
    try (split; [discriminate | discriminate]); [tauto|].
  rewrite andb_true_iff, Heqb, IH. split.
  - intros [-> ->]. reflexivity.
  - intros H. injection H as -> ->. auto.
Qed.

Lemma Byte_eqb_eq a b : Byte.eqb a b = true <-> a = b.
Proof.
  split; [apply Byte.byte_dec_bl | apply Byte.byte_dec_lb].
Qed.

Lemma InstallPayloadType_eqb_eq a b :
  InstallPayloadType_eqb a b = true <-> a = b.
Proof. destruct a, b; simpl; split; congruence. Qed.

(** X1: [Payload::operator==] holds exactly of equal payloads: it
    compares every member, and a difference in any one of the nine makes
    it false. *)
Theorem Payload_eq_iff_equal :
  forall this that : Payload, Payload_eq this that = true <-> this = that.
Proof.
  intros [u1 s1 m1 g1 h1 t1 f1 a1 p1] [u2 s2 m2 g2 h2 t2 f2 a2 p2].
  unfold Payload_eq; simpl.
  rewrite !andb_true_iff, !(vector_eqb_eq String.eqb String.eqb_eq),
    (vector_eqb_eq Byte.eqb Byte_eqb_eq), !Z.eqb_eq, !String.eqb_eq,
    InstallPayloadType_eqb_eq, Bool.eqb_true_iff.
  split.
  - intros [[[[[[[[-> ->] ->] ->] ->] ->] ->] ->] ->]. reflexivity.
  - intros H. injection H as -> -> -> -> -> -> -> -> ->. repeat split.
Qed.

(** ** update_status_utils.cc: the literals of the states *)

Lemma UpdateStatusToString_inj a b :
  UpdateStatusToString a = UpdateStatusToString b -> a = b.
Proof.
  intros H.
  pose proof (StringToUpdateStatus_UpdateStatusToString a) as Ha.
  pose proof (StringToUpdateStatus_UpdateStatusToString b) as Hb.
  rewrite H in Ha. rewrite Ha in Hb. now injection Hb.
Qed.

(** X2: [UpdateStatusToString] gives different states different
    literals, so a client that compares the literal verbatim cannot take
    one state for another. *)
Theorem UpdateStatusToString_injective :
  forall a b : UpdateStatus,
    UpdateStatusToString a = UpdateStatusToString b -> a = b.
Proof. exact UpdateStatusToString_inj. Qed.

Lemma UpdateStatusToString_injective_witness :
  DOWNLOADING = DOWNLOADING
  /\ UpdateStatusToString IDLE <> UpdateStatusToString DISABLED.
Proof.
  split.
  - apply (UpdateStatusToString_injective DOWNLOADING DOWNLOADING).
    reflexivity.
  - intros H. apply UpdateStatusToString_injective in H. discriminate H.
Defined.

(** ** update_engine_client_android.cc: [ParseHeaders], continued *)

(** The pieces of two strings joined by a line feed are the pieces of
    the one followed by the pieces of the other. *)
Lemma pieces_app_LF a b :
  pieces LF (a ++ LF ++ b) = (pieces LF a ++ pieces LF b)%list.
Proof.
  induction a as [|c a IH].
  - reflexivity.
  - change (String c a ++ LF ++ b) with (String c (a ++ LF ++ b)).
    cbn [pieces]. rewrite contains_LF, IH.
    destruct (Ascii.eqb c (ascii_of_nat 10)); [reflexivity|].
    pose proof (pieces_not_nil LF a) as Hnn.
    destruct (pieces LF a) as [|p ps]; [contradiction | reflexivity].
Qed.

Lemma append_empty_r (s : string) : s ++ "" = s.
Proof. induction s as [|c s IH]; simpl; [reflexivity | now rewrite IH]. Qed.

Lemma ParseHeaders_join a b :
  ParseHeaders (a ++ LF ++ b) = (ParseHeaders a ++ ParseHeaders b)%list.
Proof.
  unfold ParseHeaders.
  rewrite !SplitString_keep_nonempty, pieces_app_LF, filter_app, map_app.
  reflexivity.
Qed.

(** X3: [ParseHeaders] of two arguments joined by a line feed is the
    headers of the first followed by the headers of the second; so a line
    feed at the end or at the start of the argument changes nothing, and
    the empty argument has no header. *)
Theorem ParseHeaders_app :
  forall a b : string,
    ParseHeaders (a ++ LF ++ b) = (ParseHeaders a ++ ParseHeaders b)%list
    /\ ParseHeaders (a ++ LF) = ParseHeaders a
    /\ ParseHeaders (LF ++ b) = ParseHeaders b
    /\ ParseHeaders "" = [].
Proof.
  intros a b. split; [apply ParseHeaders_join|]. split; [|split].
  - rewrite <- (append_empty_r LF) at 1. rewrite ParseHeaders_join.
    change (ParseHeaders "") with (@nil String16). apply app_nil_r.
  - apply (ParseHeaders_join "" b).
  - reflexivity.
Qed.

(** X4: the headers that [ParseHeaders] returns are never empty and hold
    no line feed; and a list of such headers, joined by line feeds, is
    parsed back into the same list. *)
Theorem ParseHeaders_well_formed_and_round_trip :
  (forall arg h, In (String16_of h) (ParseHeaders arg) ->
     empty h = false /\ single_line h = true)
  /\ (forall headers : list string,
        Forall (fun h => empty h = false /\ single_line h = true) headers ->
        ParseHeaders (String.concat LF headers) = map String16_of headers).
Proof.
  split.
  - intros arg h Hin. unfold ParseHeaders in Hin.
    rewrite SplitString_keep_nonempty in Hin.
    apply in_map_iff in Hin as [h' [Heq Hin]]. injection Heq as ->.
    apply filter_In in Hin as [Hin Hne].
    split; [now apply negb_true_iff in Hne|].
    pose proof (pieces_single_line arg) as Hall.
    rewrite Forall_forall in Hall. now apply Hall.
  - induction 1 as [|h rest [Hne Hline] Hrest IH]; [reflexivity|].
    assert (Hone : ParseHeaders h = [String16_of h]).
    { unfold ParseHeaders.
      rewrite SplitString_keep_nonempty, (pieces_of_single_line h Hline).
      simpl. now rewrite Hne. }
    destruct rest as [|h' rest'].
    + exact Hone.
    + rewrite concat_cons by discriminate.
      rewrite ParseHeaders_join, IH, Hone. reflexivity.
Qed.

Lemma ParseHeaders_well_formed_and_round_trip_witness :
  (empty "FILE_HASH=abc" = false /\ single_line "FILE_HASH=abc" = true)
  /\ ParseHeaders (String.concat LF ["FILE_SIZE=871903868"; "no equals"])
     = [String16_of "FILE_SIZE=871903868"; String16_of "no equals"].
Proof.
  destruct ParseHeaders_well_formed_and_round_trip as [Hwf Hrt].
  split.
  - apply (Hwf ("FILE_HASH=abc" ++ LF ++ LF ++ "x") "FILE_HASH=abc").
    left. reflexivity.
  - apply (Hrt ["FILE_SIZE=871903868"; "no equals"]).
    repeat constructor.
Defined.

(** ** update_status_utils.cc: the blob determines the status *)

Lemma line_inj l1 l2 r1 r2 :
  single_line l1 = true -> single_line l2 = true ->
  l1 ++ LF ++ r1 = l2 ++ LF ++ r2 -> l1 = l2 /\ r1 = r2.
Proof.
  intros H1 H2 H. apply (f_equal (pieces LF)) in H.
  rewrite (pieces_line _ _ H1), (pieces_line _ _ H2) in H.
  injection H as Hl Hr. split; [exact Hl|].
  apply (f_equal (String.concat LF)) in Hr.
  now rewrite !concat_pieces_LF in Hr.
Qed.

Lemma append_inv_head (k a b : string) : k ++ a = k ++ b -> a = b.
Proof.
  induction k as [|c k IH]; simpl; intros H; [exact H|].
  injection H as H. auto.
Qed.

Lemma entry_line_single_line k v :
  single_line k = true -> single_line v = true ->
  single_line (entry_line (k, v)) = true.
Proof.
  intros Hk Hv. unfold entry_line; cbn [fst snd].
  rewrite single_line_app. cbn [single_line]. now rewrite Hk, Hv.
Qed.

Lemma entry_line_inj k v1 v2 :
  entry_line (k, v1) = entry_line (k, v2) -> v1 = v2.
Proof.
  unfold entry_line; cbn [fst snd]. intros H.
  apply append_inv_head in H. now injection H.
Qed.

Lemma plain_value_single_line v : plain_value v = true -> single_line v = true.
Proof. unfold plain_value. intros H. now apply andb_true_iff in H as [H _]. Qed.

Lemma bool_value_inj a b : bool_value a = bool_value b -> a = b.
Proof. destruct a, b; cbv; intros H; try reflexivity; discriminate H. Qed.

Lemma format_int_inj a b : format_int a = format_int b -> a = b.
Proof.
  intros H. apply (f_equal parse_int) in H.
  rewrite !parse_format_int in H. now injection H.
Qed.

(** A value that may span several lines, followed by two lines: the
    pieces are compared from the end. *)
Lemma last_lines_inj k v1 v2 p1 p2 w1 w2 :
  single_line p1 = true -> single_line p2 = true ->
  single_line w1 = true -> single_line w2 = true ->
  entry_line (k, v1) ++ LF ++ (p1 ++ LF ++ (w1 ++ LF ++ ""))
  = entry_line (k, v2) ++ LF ++ (p2 ++ LF ++ (w2 ++ LF ++ "")) ->
  v1 = v2 /\ p1 = p2 /\ w1 = w2.
Proof.
  intros Hp1 Hp2 Hw1 Hw2 H. unfold entry_line in H; cbn [fst snd] in H.
  rewrite !append_assoc_string in H. apply append_inv_head in H.
  change (String "=" v1 ++ LF ++ p1 ++ LF ++ w1 ++ LF ++ "")
    with (String "=" (v1 ++ LF ++ p1 ++ LF ++ w1 ++ LF ++ "")) in H.
  change (String "=" v2 ++ LF ++ p2 ++ LF ++ w2 ++ LF ++ "")
    with (String "=" (v2 ++ LF ++ p2 ++ LF ++ w2 ++ LF ++ "")) in H.
  injection H as H.
  assert (H' : v1 ++ LF ++ (p1 ++ LF ++ (w1 ++ LF ++ ""))
               = v2 ++ LF ++ (p2 ++ LF ++ (w2 ++ LF ++ ""))) by exact H.
  clear H. rename H' into H. apply (f_equal (pieces LF)) in H.
  rewrite !pieces_app_LF in H.
  rewrite (pieces_of_single_line p1), (pieces_of_single_line p2),
    (pieces_of_single_line w1), (pieces_of_single_line w2) in H by assumption.
  change (pieces LF "") with [EmptyString] in H. cbn [app] in H.
  change ((pieces LF v1 ++ [p1; w1; EmptyString])
          = (pieces LF v2 ++ [p2; w2; EmptyString]))%list in H.
  rewrite (app_assoc _ [p1; w1] [EmptyString]) in H.
  rewrite (app_assoc _ [p2; w2] [EmptyString]) in H.
  apply app_inj_tail in H as [H _].
  rewrite (app_assoc _ [p1] [w1]) in H.
  rewrite (app_assoc _ [p2] [w2]) in H.
  apply app_inj_tail in H as [H Hw].
  apply app_inj_tail in H as [H Hp].
  apply (f_equal (String.concat LF)) in H.
  rewrite !concat_pieces_LF in H. auto.
Qed.

(** X5: two statuses whose blobs are equal agree on every member that
    [UpdateEngineStatusToString] writes, whatever [new_version] holds
    (line feeds included); [progress] agrees as far as its text tells.
    The text of a [double] holds no line feed. *)
Theorem UpdateEngineStatusToString_injective :
  forall (format_double : float -> string) (s1 s2 : UpdateEngineStatus),
    single_line (format_double (progress s1)) = true ->
    single_line (format_double (progress s2)) = true ->
    UpdateEngineStatusToString format_double s1
    = UpdateEngineStatusToString format_double s2 ->
    last_checked_time s1 = last_checked_time s2
    /\ format_double (progress s1) = format_double (progress s2)
    /\ new_size_bytes s1 = new_size_bytes s2
    /\ status s1 = status s2
    /\ new_version s1 = new_version s2
    /\ is_enterprise_rollback s1 = is_enterprise_rollback s2
    /\ is_install s1 = is_install s2
    /\ will_powerwash_after_reboot s1 = will_powerwash_after_reboot s2.
Proof.
  intros fmt s1 s2 Hp1 Hp2 H. unfold UpdateEngineStatusToString in H.
  rewrite !status_store_entries, !SaveToString_cons in H.
  assert (Hst : forall st, single_line (UpdateStatusToString st) = true)
    by (intros; apply plain_value_single_line, UpdateStatusToString_plain).
  assert (Hb : forall b, single_line (bool_value b) = true)
    by (intros; apply plain_value_single_line, bool_value_plain).
  assert (Hn : forall n, single_line (format_int n) = true)
    by (intros; apply plain_value_single_line, format_int_plain).
  apply line_inj in H as [Hcur H];
    [|apply entry_line_single_line; [reflexivity | apply Hst]..].
  apply line_inj in H as [Hroll H];
    [|apply entry_line_single_line; [reflexivity | apply Hb]..].
  apply line_inj in H as [Hinst H];
    [|apply entry_line_single_line; [reflexivity | apply Hb]..].
  apply line_inj in H as [Htime H];
    [|apply entry_line_single_line; [reflexivity | apply Hn]..].
  apply line_inj in H as [Hsize H];
    [|apply entry_line_single_line; [reflexivity | apply Hn]..].
  apply entry_line_inj in Hcur, Hroll, Hinst, Htime, Hsize.
  change (SaveToString []) with EmptyString in H.
  apply last_lines_inj in H as [Hver [Hprog Hwash]];
    [|apply entry_line_single_line; first [reflexivity | assumption | apply Hb]..].
  apply entry_line_inj in Hprog, Hwash.
  repeat split;
    first [ now apply UpdateStatusToString_inj | now apply bool_value_inj
          | now apply format_int_inj | assumption ].
Qed.

Definition status_two_lines : UpdateEngineStatus := {|
  last_checked_time := -1;
  progress := 0.5%float;
  new_size_bytes := 0;
  status := FINALIZING;
  new_version := "R1" ++ LF ++ "PROGRESS=1";
  is_enterprise_rollback := false;
  is_install := true;
  will_powerwash_after_reboot := false
|}.

Lemma UpdateEngineStatusToString_injective_witness :
  new_version status_two_lines = new_version status_two_lines
  /\ status status_two_lines = FINALIZING.
Proof.
  destruct (UpdateEngineStatusToString_injective (fun _ => "0.5")
              status_two_lines status_two_lines eq_refl eq_refl eq_refl)
    as [_ [_ [_ [_ [Hversion _]]]]].
  split; [exact Hversion | reflexivity].
Defined.

(** ** update_engine_client_android.cc: the runs of [OnInit] *)

(** Splits a hypothesis about a run of [OnInit] into the paths of the
    code. *)
Ltac OnInit_paths H :=
  unfold Run, OnInit, OnInit_commands, OnInit_tail, ExitWhenIdle_Status,
    ExitWhenIdle, loop in H;
  repeat match type of H with
    | context [if ?b then _ else _] =>
        lazymatch b with
        | context [if _ then _ else _] => fail
        | context [match _ with _ => _ end] => fail
        | _ => destruct b eqn:?
        end
    | context [match ?x with _ => _ end] =>
        lazymatch x with
        | context [if _ then _ else _] => fail
        | context [match _ with _ => _ end] => fail
        | _ => destruct x eqn:?
        end
    end;
  cbn in H.

(** X6: a run of the client keeps waiting on its message loop only
    when it follows ([--follow]) or merges ([--merge]); it has then
    registered for the death of the service and its callback, no exit is
    pending, and none of the flags that end a run was given. The terminal
    callback then ends it: with 0 for the codes 0 and 52, with 1 for any
    other code. *)
Theorem Run_waits_only_when_following :
  forall (env : Environment) (argc : Z) (args : list string) (F : Flags)
         (c : State),
    Run env argc args F = Waiting c ->
    (FLAGS_follow F = true \/ FLAGS_merge F = true)
    /\ death_notification c = true
    /\ quit_tasks c = []
    /\ (FLAGS_follow F = true -> callback_ c = true)
    /\ (FLAGS_merge F = true -> cleanup_callback_ c = true)
    /\ FLAGS_suspend F = false /\ FLAGS_resume F = false
    /\ FLAGS_cancel F = false /\ FLAGS_reset_status F = false
    /\ FLAGS_verify F = false /\ FLAGS_allocate F = false
    /\ FLAGS_perf_mode F = false
    /\ (PostTask env = true ->
        forall error_code,
          deliver env error_code c
          = Exited (if (error_code =? 0) || (error_code =? 52)
                    then 0 else 1)).
Proof.
  intros env argc args F c H.
  OnInit_paths H; try discriminate H;
    injection H as <-; cbn; repeat split; auto; try discriminate;
    intros Hpost error_code;
    (apply deliver_posts; [assumption | reflexivity]).
Qed.

(** [--update --follow] with the default payload. *)
Definition Flags_update_follow : Flags := {|
  FLAGS_update := true;
  FLAGS_payload := "http://127.0.0.1:8080/payload";
  FLAGS_offset := 0;
  FLAGS_size := 0;
  FLAGS_headers := "";
  FLAGS_verify := false;
  FLAGS_allocate := false;
  FLAGS_metadata := "/data/ota_package/metadata";
  FLAGS_switch_slot := UNSPECIFIED_FLAG;
  FLAGS_trigger_postinstall := UNSPECIFIED_FLAG;
  FLAGS_suspend := false;
  FLAGS_resume := false;
  FLAGS_cancel := false;
  FLAGS_reset_status := false;
  FLAGS_follow := true;
  FLAGS_merge := false;
  FLAGS_perf_mode := false
|}.

Lemma Run_waits_only_when_following_witness :
  exists c,
    Run env_ok 3 [] Flags_update_follow = Waiting c
    /\ death_notification c = true
    /\ deliver env_ok 52 c = Exited 0
    /\ deliver env_ok 7 c = Exited 1.
Proof.
  eexists. split; [reflexivity|].
  destruct (Run_waits_only_when_following env_ok 3 [] Flags_update_follow
              _ eq_refl)
    as (_ & Hdeath & _ & _ & _ & _ & _ & _ & _ & _ & _ & _ & Hdeliver).
  split; [exact Hdeath|].
  split; [apply (Hdeliver eq_refl 52) | apply (Hdeliver eq_refl 7)].
Defined.

(** X7: when the message loop refuses the exit task, a run that ends
    does so with 1, even if the call it made to the service went
    through. *)
Theorem refused_exit_task_exits_with_1 :
  forall (env : Environment) (argc : Z) (args : list string) (F : Flags)
         (code : Z),
    Daemon_OnInit env = EX_OK ->
    PostTask env = false ->
    Run env argc args F = Exited code ->
    code = 1.
Proof.
  intros env argc args F code Hd Hpost H.
  unfold Run, OnInit, OnInit_commands, OnInit_tail, ExitWhenIdle_Status,
    ExitWhenIdle in H.
  rewrite Hd, ?Hpost in H. cbn in H.
  OnInit_paths H; try discriminate H;
    try solve [exfalso;
               match goal with
               | Hx : _ = _ |- _ => cbn in Hx; discriminate Hx
               end];
    injection H as <-; reflexivity.
Qed.

(** A message loop that takes no task, in front of a service on which
    every call goes through. *)
Definition env_loop_refuses : Environment := {|
  Daemon_OnInit := EX_OK;
  getService := android_OK;
  PostTask := false;
  service_ := service_ok
|}.

Lemma refused_exit_task_exits_with_1_witness :
  match Run env_loop_refuses 2 [] Flags_suspend with
  | Exited code => code = 1
  | Waiting _ => False
  end.
Proof.
  apply (refused_exit_task_exits_with_1 env_loop_refuses 2 [] Flags_suspend 1);
    reflexivity.
Defined.

(** X8: the command flags are tried in the order [--suspend],
    [--resume], [--cancel], [--reset_status], and the first one given
    decides the run: two command lines that agree on [--follow] and on
    that first flag run alike, whatever their other flags are. *)
Theorem first_command_flag_decides :
  forall (env : Environment) (argc : Z) (args : list string) (F F' : Flags),
    FLAGS_follow F = FLAGS_follow F' ->
    (FLAGS_suspend F = true -> FLAGS_suspend F' = true ->
     Run env argc args F = Run env argc args F')
    /\ (FLAGS_suspend F = false -> FLAGS_suspend F' = false ->
        FLAGS_resume F = true -> FLAGS_resume F' = true ->
        Run env argc args F = Run env argc args F')
    /\ (FLAGS_suspend F = false -> FLAGS_suspend F' = false ->
        FLAGS_resume F = false -> FLAGS_resume F' = false ->
        FLAGS_cancel F = true -> FLAGS_cancel F' = true ->
        Run env argc args F = Run env argc args F')
    /\ (FLAGS_suspend F = false -> FLAGS_suspend F' = false ->
        FLAGS_resume F = false -> FLAGS_resume F' = false ->
        FLAGS_cancel F = false -> FLAGS_cancel F' = false ->
        FLAGS_reset_status F = true -> FLAGS_reset_status F' = true ->
        Run env argc args F = Run env argc args F').
Proof.
  intros env argc args F F' Hfollow.
  unfold Run, OnInit, OnInit_commands. rewrite <- Hfollow.
  repeat split; intros;
    repeat match goal with
           | Hx : _ F = _ |- _ => rewrite Hx; clear Hx
           | Hx : _ F' = _ |- _ => rewrite Hx; clear Hx
           end;
    reflexivity.
Qed.

(** [--suspend] alone, and [--suspend] with an update and every other
    command. *)
Definition Flags_suspend_and_more : Flags := {|
  FLAGS_update := true;
  FLAGS_payload := "file:///data/ota_package/payload.bin";
  FLAGS_offset := 1024;
  FLAGS_size := 0;
  FLAGS_headers := "FILE_SIZE=1";
  FLAGS_verify := true;
  FLAGS_allocate := true;
  FLAGS_metadata := "/data/ota_package/metadata";
  FLAGS_switch_slot := "maybe";
  FLAGS_trigger_postinstall := "system";
  FLAGS_suspend := true;
  FLAGS_resume := true;
  FLAGS_cancel := true;
  FLAGS_reset_status := true;
  FLAGS_follow := false;
  FLAGS_merge := true;
  FLAGS_perf_mode := true
|}.

Lemma first_command_flag_decides_witness :
  Run env_suspend_refused 9 [] Flags_suspend_and_more
  = Run env_suspend_refused 9 [] Flags_suspend
  /\ Run env_suspend_refused 9 [] Flags_suspend = Exited (-5).
Proof.
  destruct (first_command_flag_decides env_suspend_refused 9 []
              Flags_suspend_and_more Flags_suspend eq_refl) as [Hsuspend _].
  split; [apply Hsuspend; reflexivity | reflexivity].
Defined.

(** The exit code of a run that has ended. *)
Definition exit_code (o : Outcome) : option Z :=
  match o with
  | Exited code => Some code
  | Waiting _ => None
  end.

(** Two services that answer every call with the same binder status;
    they may differ in the values they hand back through the out
    parameters of [verifyPayloadApplicable] and
    [allocateSpaceForPayload]. *)
Definition same_statuses (s1 s2 : IUpdateEngine) : Prop :=
  bind s1 = bind s2
  /\ suspend s1 = suspend s2
  /\ resume s1 = resume s2
  /\ cancel s1 = cancel s2
  /\ resetStatus s1 = resetStatus s2
  /\ triggerPostinstall s1 = triggerPostinstall s2
  /\ setShouldSwitchSlotOnReboot s1 = setShouldSwitchSlotOnReboot s2
  /\ resetShouldSwitchSlotOnReboot s1 = resetShouldSwitchSlotOnReboot s2
  /\ (forall metadata,
        fst (verifyPayloadApplicable s1 metadata)
        = fst (verifyPayloadApplicable s2 metadata))
  /\ (forall metadata headers,
        fst (allocateSpaceForPayload s1 metadata headers)
        = fst (allocateSpaceForPayload s2 metadata headers))
  /\ cleanupSuccessfulUpdate s1 = cleanupSuccessfulUpdate s2
  /\ setPerformanceMode s1 = setPerformanceMode s2
  /\ applyPayload s1 = applyPayload s2.

Definition with_service (env : Environment) (service : IUpdateEngine)
  : Environment :=
  {| Daemon_OnInit := Daemon_OnInit env;
     getService := getService env;
     PostTask := PostTask env;
     service_ := service |}.

(** Splits the goal along the conditions of the code. *)
Ltac goal_paths :=
  repeat match goal with
    | |- context [if ?b then _ else _] =>
        lazymatch b with
        | context [if _ then _ else _] => fail
        | context [match _ with _ => _ end] => fail
        | _ => destruct b eqn:?
        end
    | |- context [match ?x with _ => _ end] =>
        lazymatch x with
        | context [if _ then _ else _] => fail
        | context [match _ with _ => _ end] => fail
        | _ => destruct x eqn:?
        end
    end.

(** X9: the exit code of a run depends on the binder statuses of the
    calls only: whether the payload was found applicable, and how many
    bytes the allocation still requires, change the log but not the exit
    code. In particular [--verify] of a payload that is not applicable and
    [--allocate] without enough space exit with 0 when the call itself
    went through. *)
Theorem exit_code_depends_on_statuses_only :
  forall (env : Environment) (s1 s2 : IUpdateEngine) (argc : Z)
         (args : list string) (F : Flags),
    same_statuses s1 s2 ->
    exit_code (Run (with_service env s1) argc args F)
    = exit_code (Run (with_service env s2) argc args F).
Proof.
  intros env s1 s2 argc args F
    (Hbind & Hsus & Hres & Hcan & Hreset & Htrig & Hset & Hunset & Hver
     & Hall & Hclean & Hperf & Happly).
  specialize (Hver (String16_of (FLAGS_metadata F))).
  specialize (Hall (String16_of (FLAGS_metadata F))
                (ParseHeaders (FLAGS_headers F))).
  unfold Run, OnInit, OnInit_commands, OnInit_tail, ExitWhenIdle_Status,
    ExitWhenIdle, loop, with_service.
  cbn [Daemon_OnInit getService PostTask service_].
  rewrite <- Hbind, <- Hsus, <- Hres, <- Hcan, <- Hreset, <- Htrig, <- Hset,
    <- Hunset, <- Hclean, <- Hperf, <- Happly.
  destruct (verifyPayloadApplicable s1 _) as [v1 a1],
           (verifyPayloadApplicable s2 _) as [v2 a2],
           (allocateSpaceForPayload s1 _ _) as [r1 n1],
           (allocateSpaceForPayload s2 _ _) as [r2 n2].
  cbn [fst] in Hver, Hall. subst v2 r2.
  goal_paths; cbn; try reflexivity; try congruence;
    repeat match goal with
           | Hx : quit_tasks _ = _ |- _ =>
               cbn in Hx; first [discriminate Hx | injection Hx as <- <-]
           end;
    try reflexivity;
    exfalso;
    match goal with
    | Hx : negb (_ =? _) = _ |- _ => cbv in Hx; discriminate Hx
    end.
Qed.

(** [--verify] alone. *)
Definition Flags_verify : Flags := {|
  FLAGS_update := false;
  FLAGS_payload := "http://127.0.0.1:8080/payload";
  FLAGS_offset := 0;
  FLAGS_size := 0;
  FLAGS_headers := "";
  FLAGS_verify := true;
  FLAGS_allocate := false;
  FLAGS_metadata := "/data/ota_package/metadata";
  FLAGS_switch_slot := UNSPECIFIED_FLAG;
  FLAGS_trigger_postinstall := UNSPECIFIED_FLAG;
  FLAGS_suspend := false;
  FLAGS_resume := false;
  FLAGS_cancel := false;
  FLAGS_reset_status := false;
  FLAGS_follow := false;
  FLAGS_merge := false;
  FLAGS_perf_mode := false
|}.

(** A service that finds no payload applicable, and otherwise answers as
    [service_ok] does. *)
Definition service_not_applicable : IUpdateEngine := {|
  bind := (Status_ok, true);
  suspend := Status_ok;
  resume := Status_ok;
  cancel := Status_ok;
  resetStatus := Status_ok;
  triggerPostinstall := fun _ => Status_ok;
  setShouldSwitchSlotOnReboot := fun _ => Status_ok;
  resetShouldSwitchSlotOnReboot := Status_ok;
  verifyPayloadApplicable := fun _ => (Status_ok, false);
  allocateSpaceForPayload := fun _ _ => (Status_ok, 4096);
  cleanupSuccessfulUpdate := Status_ok;
  setPerformanceMode := fun _ => Status_ok;
  applyPayload := fun _ _ _ _ => Status_ok
|}.

Lemma exit_code_depends_on_statuses_only_witness :
  exit_code (Run (with_service env_ok service_not_applicable) 2 []
               Flags_verify) = Some 0
  /\ exit_code (Run (with_service env_ok service_not_applicable) 2 []
                  Flags_allocate) = Some 0.
Proof.
  assert (Hsame : same_statuses service_not_applicable service_ok)
    by (repeat split).
  split.
  - rewrite (exit_code_depends_on_statuses_only env_ok
               service_not_applicable service_ok 2 [] Flags_verify Hsame).
    reflexivity.
  - rewrite (exit_code_depends_on_statuses_only env_ok
               service_not_applicable service_ok 2 [] Flags_allocate Hsame).
    reflexivity.
Defined.

(* ===================================================================== *)
(** ** payload_generator/delta_diff_generator.cc *)
(* ===================================================================== *)

Module Generator.

(** A group of [DynamicPartitionMetadata] and the metadata itself, with
    the fields that the generator reads. *)
Record DynamicPartitionGroup := {
  group_name : string;
  partition_names : list string
}.

Record DynamicPartitionMetadata := {
  groups : list DynamicPartitionGroup;
  snapshot_enabled : bool;
  vabc_enabled : bool;
  vabc_compression_param : string;
  cow_version : Z;
  compression_factor : Z
}.

(** [PartitionConfig]: the fields that the generator reads. *)
Record PartitionConfig := {
  name : string;
  path : string;
  size : Z
}.

(** [android::snapshot::CowSizeInfo]. *)
Record CowSizeInfo := {
  cow_size : Z;
  op_count_max : Z
}.

(** [std::find(names.begin(), names.end(), partition_name) !=
    names.end()]. *)
Fixpoint found (names : list string) (partition_name : string) : bool :=
  match names with
  | [] => false
  | n :: rest => if String.eqb n partition_name then true
                 else found rest partition_name
  end.

(** [PartitionProcessor::IsDynamicPartition], over the groups of the
    target's metadata. *)
Fixpoint IsDynamicPartition (groups_ : list DynamicPartitionGroup)
    (partition_name : string) : bool :=
  match groups_ with
  | [] => false
  | group :: rest =>
      if found (partition_names group) partition_name then true
      else IsDynamicPartition rest partition_name
  end.

(** [int(x)] for an integer [x]: its value modulo [2^32], in the range
    of [int]. *)
Definition to_int (x : Z) : Z := (x + 2 ^ 31) mod 2 ^ 32 - 2 ^ 31.

Definition INT_MAX : Z := 2 ^ 31 - 1.

(** How [PartitionProcessor::Run] ends: [LOG(FATAL)] aborts the process;
    otherwise the COW information of the partition is what [Run] leaves
    in [*cow_info_], and the flag tells whether a merge sequence was
    generated. *)
Inductive RunOutcome :=
| Fatal (message : string)
| Finished (cow_info : CowSizeInfo) (merge_sequence : bool).

Section PartitionProcessor.

(** The collaborators of [Run]: whether the strategy generates the
    operations, whether the merge sequence generator is created and
    generates, what [EstimateCowSizeInfo] returns, and the product
    [cow_size * 1.01] converted back to an integer. *)
Variable GenerateOperations : bool.
Variable MergeSequence_Generate : bool.
Variable EstimateCowSizeInfo : CowSizeInfo.
Variable times_1_01 : Z -> Z.

(** [PartitionProcessor::Run], for the target metadata (null or not),
    the two partitions and the initial [*cow_info_]. *)
Definition Run (dynamic_partition_metadata : option DynamicPartitionMetadata)
    (old_part_ new_part_ : PartitionConfig) (cow_info_ : CowSizeInfo)
  : RunOutcome :=
  let success := GenerateOperations in
  if negb success then Fatal "GenerateOperations failed"
  else
    match dynamic_partition_metadata with
    | None => Finished cow_info_ false
    | Some metadata =>
        let snapshot_enabled_ := snapshot_enabled metadata in
        if negb snapshot_enabled_
           || negb (IsDynamicPartition (groups metadata) (name new_part_))
        then Finished cow_info_ false
        else if negb (vabc_enabled metadata) then Finished cow_info_ false
        else if negb (Base.empty (path old_part_))
                && negb MergeSequence_Generate
        then Fatal "Failed to generate merge sequence"
        else
          let estimate := EstimateCowSizeInfo in
          let cow_size_ := times_1_01 (cow_size estimate) in
          let op_count_max_ :=
            if 3 <=? cow_version metadata
            then Z.max (to_int (op_count_max estimate)) 25
            else op_count_max estimate in
          Finished {| cow_size := cow_size_; op_count_max := op_count_max_ |}
            (negb (Base.empty (path old_part_)))
    end.

End PartitionProcessor.

(** The number of threads that [GenerateUpdatePayloadFile] gives its
    pool, from [diff_utils::GetMaxThreads()], the number of target
    partitions and [config.max_threads]. *)
Definition thread_count (GetMaxThreads partitions_size max_threads : Z) : Z :=
  let thread_count := Z.min GetMaxThreads partitions_size in
  let thread_count :=
    if (max_threads <? thread_count) && (0 <? max_threads) then max_threads
    else thread_count in
  let thread_count := if thread_count <? 1 then 1 else thread_count in
  thread_count.

(** The conditions under which [Run] estimates the COW size. *)
Definition estimates_cow (metadata : option DynamicPartitionMetadata)
    (partition_name : string) : Prop :=
  exists m, metadata = Some m
            /\ snapshot_enabled m = true
            /\ vabc_enabled m = true
            /\ exists group, In group (groups m)
                             /\ In partition_name (partition_names group).

End Generator.

(** X10: the pool of [GenerateUpdatePayloadFile] always has at least
    one thread, never more than there are partitions or than
    [GetMaxThreads()] allows (one thread apart), and never more than a
    positive [max_threads]; [max_threads = 0] sets no limit. *)
Theorem thread_count_bounds :
  forall GetMaxThreads partitions_size max_threads : Z,
    1 <= Generator.thread_count GetMaxThreads partitions_size max_threads
    /\ Generator.thread_count GetMaxThreads partitions_size max_threads
       <= Z.max 1 partitions_size
    /\ Generator.thread_count GetMaxThreads partitions_size max_threads
       <= Z.max 1 GetMaxThreads
    /\ (0 < max_threads ->
        Generator.thread_count GetMaxThreads partitions_size max_threads
        <= max_threads)
    /\ (max_threads = 0 ->
        Generator.thread_count GetMaxThreads partitions_size max_threads
        = Z.max 1 (Z.min GetMaxThreads partitions_size)).
Proof.
  intros hw n mt. unfold Generator.thread_count.
  destruct (Z.ltb_spec mt (Z.min hw n)); destruct (Z.ltb_spec 0 mt);
    cbn [andb];
    match goal with
    | |- context [if ?x <? 1 then _ else _] => destruct (Z.ltb_spec x 1)
    end; lia.
Qed.

Lemma thread_count_bounds_witness :
  Generator.thread_count 8 20 4 <= 4
  /\ Generator.thread_count 8 0 0 = 1
  /\ Generator.thread_count 8 20 0 = 8.
Proof.
  destruct (thread_count_bounds 8 20 4) as (_ & _ & _ & Hmax & _).
  destruct (thread_count_bounds 8 0 0) as (_ & _ & _ & _ & Hnone).
  destruct (thread_count_bounds 8 20 0) as (_ & _ & _ & _ & Hnolimit).
  split; [apply Hmax; lia|].
  split; [rewrite Hnone; reflexivity | rewrite Hnolimit; reflexivity].
Defined.

Lemma found_In names partition_name :
  Generator.found names partition_name = true <-> In partition_name names.
Proof.
  induction names as [|n rest IH]; simpl; [split; [discriminate | tauto]|].
  destruct (String.eqb_spec n partition_name) as [->|Hne].
  - split; auto.
  - rewrite IH. split; [auto | intros [H|H]; [contradiction | exact H]].
Qed.

Lemma IsDynamicPartition_In groups_ partition_name :
  Generator.IsDynamicPartition groups_ partition_name = true
  <-> exists group, In group groups_
                    /\ In partition_name (Generator.partition_names group).
Proof.
  induction groups_ as [|g rest IH]; simpl.
  - split; [discriminate | intros [group [[] _]]].
  - destruct (Generator.found (Generator.partition_names g) partition_name)
      eqn:Hf.
    + split; [|reflexivity]. intros _. exists g. split; [left; reflexivity|].
      now apply found_In.
    + rewrite IH. split.
      * intros [group [Hin Hname]]. exists group. auto.
      * intros [group [[<-|Hin] Hname]].
        -- apply found_In in Hname. congruence.
        -- exists group. auto.
Qed.

(** X11: [IsDynamicPartition] answers true exactly for the names listed
    in some group of the metadata; a partition in no group, and any
    partition when there is no group, is not dynamic. *)
Theorem IsDynamicPartition_iff_listed :
  forall (groups_ : list Generator.DynamicPartitionGroup)
         (partition_name : string),
    (Generator.IsDynamicPartition groups_ partition_name = true
     <-> exists group, In group groups_
                       /\ In partition_name (Generator.partition_names group))
    /\ Generator.IsDynamicPartition [] partition_name = false.
Proof.
  intros groups_ partition_name.
  split; [apply IsDynamicPartition_In | reflexivity].
Qed.

Lemma to_int_range x :
  - 2 ^ 31 <= Generator.to_int x <= Generator.INT_MAX.
Proof.
  unfold Generator.to_int, Generator.INT_MAX.
  pose proof (Z.mod_pos_bound (x + 2 ^ 31) (2 ^ 32) ltac:(lia)). lia.
Qed.

Lemma to_int_small x :
  0 <= x <= Generator.INT_MAX -> Generator.to_int x = x.
Proof.
  unfold Generator.to_int, Generator.INT_MAX. intros H.
  rewrite Z.mod_small; lia.
Qed.

(** The test that [Run] makes before it estimates. *)
Lemma estimates_cow_test m partition_name :
  Generator.estimates_cow (Some m) partition_name
  <-> Generator.snapshot_enabled m = true
      /\ Generator.IsDynamicPartition (Generator.groups m) partition_name
         = true
      /\ Generator.vabc_enabled m = true.
Proof.
  unfold Generator.estimates_cow. rewrite IsDynamicPartition_In. split.
  - intros [m' [Heq [Hs [Hv Hg]]]]. injection Heq as <-. auto.
  - intros [Hs [Hg Hv]]. exists m. auto.
Qed.

(** X12: [PartitionProcessor::Run] aborts when the operations cannot be
    generated. Otherwise it estimates the COW size only for a partition
    listed in a group of a target whose metadata is present, snapshot
    enabled and VABC enabled, and leaves [*cow_info_] untouched in every
    other case. When it estimates, a source partition without a merge
    sequence aborts; else the estimate is scaled, and for COW version 3
    and later the operation count is at least 25, at most [INT_MAX], and
    unchanged when it already lies between the two; for earlier versions
    it is the estimated one. *)
Theorem Run_estimates_cow_for_vabc_dynamic_partitions_only :
  forall (generated merged : bool) (estimate : Generator.CowSizeInfo)
         (times_1_01 : Z -> Z)
         (metadata : option Generator.DynamicPartitionMetadata)
         (old_part new_part : Generator.PartitionConfig)
         (cow_info : Generator.CowSizeInfo),
    let run := Generator.Run generated merged estimate times_1_01 metadata
                 old_part new_part cow_info in
    (generated = false -> exists message, run = Generator.Fatal message)
    /\ (generated = true ->
        ~ Generator.estimates_cow metadata (Generator.name new_part) ->
        run = Generator.Finished cow_info false)
    /\ (generated = true ->
        Generator.estimates_cow metadata (Generator.name new_part) ->
        (Generator.path old_part <> "" -> merged = false ->
         exists message, run = Generator.Fatal message)
        /\ (Generator.path old_part = "" \/ merged = true ->
            exists ops,
              run = Generator.Finished
                      {| Generator.cow_size :=
                           times_1_01 (Generator.cow_size estimate);
                         Generator.op_count_max := ops |}
                      (negb (empty (Generator.path old_part)))
              /\ forall m, metadata = Some m ->
                   (3 <= Generator.cow_version m ->
                    25 <= ops <= Generator.INT_MAX
                    /\ (25 <= Generator.op_count_max estimate
                           <= Generator.INT_MAX ->
                        ops = Generator.op_count_max estimate))
                   /\ (Generator.cow_version m < 3 ->
                       ops = Generator.op_count_max estimate))).
Proof.
  intros generated merged estimate scale metadata old_part new_part cow_info
    run.
  subst run. unfold Generator.Run. split; [|split].
  - intros ->. eexists. reflexivity.
  - intros -> Hnot. cbn [negb]. destruct metadata as [m|]; [|reflexivity].
    rewrite estimates_cow_test in Hnot.
    destruct (Generator.snapshot_enabled m); [|reflexivity].
    destruct (Generator.IsDynamicPartition _ _); [|reflexivity].
    destruct (Generator.vabc_enabled m); [|reflexivity].
    exfalso. apply Hnot. auto.
  - intros -> Hest. cbn [negb].
    destruct Hest as [m [-> Hm]].
    assert (Htest : Generator.estimates_cow (Some m) (Generator.name new_part))
      by (exists m; auto).
    apply estimates_cow_test in Htest as [Hs [Hg Hv]].
    rewrite Hs, Hg, Hv. cbn [negb orb]. split.
    + intros Hpath ->. destruct (Generator.path old_part) as [|c p];
        [contradiction|]. eexists. reflexivity.
    + intros Hok.
      assert (Hgo : negb (empty (Generator.path old_part)) && negb merged
                    = false).
      { destruct Hok as [-> | ->]; [reflexivity|]. apply andb_false_r. }
      rewrite Hgo. eexists. split; [reflexivity|].
      intros m' Heq. injection Heq as <-. split.
      * intros Hv3. destruct (Z.leb_spec 3 (Generator.cow_version m)); [|lia].
        pose proof (to_int_range (Generator.op_count_max estimate)).
        split; [unfold Generator.INT_MAX in *; lia|].
        intros Hin. rewrite to_int_small by lia. lia.
      * intros Hv2. destruct (Z.leb_spec 3 (Generator.cow_version m)); [lia|].
        reflexivity.
Qed.

(** A VABC target with one group, a partition of that group and one
    outside of it. *)
Definition vabc_metadata : Generator.DynamicPartitionMetadata := {|
  Generator.groups :=
    [ {| Generator.group_name := "main";
         Generator.partition_names := ["system"; "vendor"] |} ];
  Generator.snapshot_enabled := true;
  Generator.vabc_enabled := true;
  Generator.vabc_compression_param := "lz4";
  Generator.cow_version := 3;
  Generator.compression_factor := 65536
|}.

Definition system_partition : Generator.PartitionConfig :=
  {| Generator.name := "system"; Generator.path := "system.img";
     Generator.size := 1073741824 |}.

Definition boot_partition : Generator.PartitionConfig :=
  {| Generator.name := "boot"; Generator.path := "boot.img";
     Generator.size := 67108864 |}.

Definition no_source : Generator.PartitionConfig :=
  {| Generator.name := ""; Generator.path := ""; Generator.size := 0 |}.

Definition no_cow_info : Generator.CowSizeInfo :=
  {| Generator.cow_size := 0; Generator.op_count_max := 0 |}.

Lemma Run_estimates_cow_for_vabc_dynamic_partitions_only_witness :
  Generator.Run true false
    {| Generator.cow_size := 1000; Generator.op_count_max := 4294967296 |}
    (fun n => n + n / 100) (Some vabc_metadata) no_source boot_partition
    no_cow_info
  = Generator.Finished no_cow_info false
  /\ (exists message,
        Generator.Run false true
          {| Generator.cow_size := 1000; Generator.op_count_max := 7 |}
          (fun n => n + n / 100) (Some vabc_metadata) no_source
          system_partition no_cow_info
        = Generator.Fatal message)
  /\ (exists ops,
        Generator.Run true false
          {| Generator.cow_size := 1000; Generator.op_count_max := 7 |}
          (fun n => n + n / 100) (Some vabc_metadata) no_source
          system_partition no_cow_info
        = Generator.Finished
            {| Generator.cow_size := 1010; Generator.op_count_max := ops |}
            false
        /\ 25 <= ops).
Proof.
  split; [|split].
  - destruct (Run_estimates_cow_for_vabc_dynamic_partitions_only true false
                {| Generator.cow_size := 1000;
                   Generator.op_count_max := 4294967296 |}
                (fun n => n + n / 100) (Some vabc_metadata) no_source
                boot_partition no_cow_info) as [_ [Hskip _]].
    apply Hskip; [reflexivity|].
    intros Hest. apply estimates_cow_test in Hest as [_ [Hdyn _]].
    discriminate Hdyn.
  - destruct (Run_estimates_cow_for_vabc_dynamic_partitions_only false true
                {| Generator.cow_size := 1000; Generator.op_count_max := 7 |}
                (fun n => n + n / 100) (Some vabc_metadata) no_source
                system_partition no_cow_info) as [Hfatal _].
    apply Hfatal. reflexivity.
  - destruct (Run_estimates_cow_for_vabc_dynamic_partitions_only true false
                {| Generator.cow_size := 1000; Generator.op_count_max := 7 |}
                (fun n => n + n / 100) (Some vabc_metadata) no_source
                system_partition no_cow_info) as [_ [_ Hest]].
    destruct (Hest eq_refl) as [_ Hok].
    { apply estimates_cow_test. repeat split. }
    destruct (Hok (or_introl eq_refl)) as [ops [Hrun Hops]].
    exists ops. split; [exact Hrun|].
    destruct (Hops vabc_metadata eq_refl) as [Hv3 _].
    apply Hv3. simpl. lia.
Defined.

(* ===================================================================== *)
(** * The keys of the serialized status *)
(* ===================================================================== *)

(** What a reader finds in the blob of a status: the blob loads, the
    keys of the loaded store are the eight keys of the export and no
    other, and [CURRENT_OP] holds the literal of the state. *)
Definition blob_has_the_eight_keys (format_double : float -> string)
    (s : UpdateEngineStatus) : Prop :=
  exists store,
    LoadFromString (UpdateEngineStatusToString format_double s) = Some store
    /\ (forall key,
          In key (GetKeys store)
          <-> In key ["LAST_CHECKED_TIME"; "PROGRESS"; "NEW_SIZE";
                      "CURRENT_OP"; "NEW_VERSION"; "IS_ENTERPRISE_ROLLBACK";
                      "IS_INSTALL"; "WILL_POWERWASH_AFTER_REBOOT"])
    /\ List.length (GetKeys store) = 8%nat
    /\ GetString "CURRENT_OP" store
       = Some ("UPDATE_STATUS_" ++ enumerator (status s)).

(** An idle status whose version brings a key of its own, and one whose
    version brings a second [CURRENT_OP]. *)
Definition status_with_extra_key : UpdateEngineStatus := {|
  last_checked_time := 0;
  progress := 0.5%float;
  new_size_bytes := 0;
  status := IDLE;
  new_version := "1.0" ++ LF ++ "EVIL=1";
  is_enterprise_rollback := false;
  is_install := false;
  will_powerwash_after_reboot := false
|}.

Definition status_with_second_current_op : UpdateEngineStatus := {|
  last_checked_time := 0;
  progress := 0.5%float;
  new_size_bytes := 0;
  status := IDLE;
  new_version := "1.0" ++ LF ++ "CURRENT_OP=UPDATE_STATUS_DISABLED";
  is_enterprise_rollback := false;
  is_install := false;
  will_powerwash_after_reboot := false
|}.

(** C4 as stated fails: the blob of [status_with_extra_key] loads with a
    ninth key, [EVIL]; the blob of [status_with_second_current_op], a
    status in state [IDLE], loads with [UPDATE_STATUS_DISABLED] for
    [CURRENT_OP]. *)
Lemma line_feed_in_new_version_changes_the_keys :
  ~ blob_has_the_eight_keys (fun _ => "0.5") status_with_extra_key
  /\ ~ blob_has_the_eight_keys (fun _ => "0.5") status_with_second_current_op.
Proof.
  split.
  - intros [store [Hload [Hkeys _]]].
    vm_compute in Hload. injection Hload as <-.
    assert (Hevil : In "EVIL" ["LAST_CHECKED_TIME"; "PROGRESS"; "NEW_SIZE";
                              "CURRENT_OP"; "NEW_VERSION";
                              "IS_ENTERPRISE_ROLLBACK"; "IS_INSTALL";
                              "WILL_POWERWASH_AFTER_REBOOT"]).
    { apply Hkeys. vm_compute. tauto. }
    simpl in Hevil.
    repeat (destruct Hevil as [Hevil | Hevil]; [discriminate Hevil|]).
    exact Hevil.
  - intros [store [Hload [_ [_ Hop]]]].
    vm_compute in Hload. injection Hload as <-.
    vm_compute in Hop. discriminate Hop.
Qed.

(** C4, amended: when [new_version] holds no line feed and does not end
    in a backslash, the blob that [UpdateEngineStatusToString] produces
    loads into exactly the eight keys [LAST_CHECKED_TIME], [PROGRESS],
    [NEW_SIZE], [CURRENT_OP], [NEW_VERSION], [IS_ENTERPRISE_ROLLBACK],
    [IS_INSTALL] and [WILL_POWERWASH_AFTER_REBOOT], and the value of
    [CURRENT_OP] is the literal of the state: [UPDATE_STATUS_IDLE],
    [UPDATE_STATUS_DOWNLOADING] and so on for each of the twelve states.
    The text of the [double] is taken as [std::format] gives it: one
    line, no backslash at its end. *)
Theorem status_blob_has_the_eight_keys :
  forall (format_double : float -> string) (s : UpdateEngineStatus),
    single_line (new_version s) = true ->
    ends_with_backslash (new_version s) = false ->
    single_line (format_double (progress s)) = true ->
    ends_with_backslash (format_double (progress s)) = false ->
    blob_has_the_eight_keys format_double s
    /\ map UpdateStatusToString all_UpdateStatus
       = ["UPDATE_STATUS_IDLE"; "UPDATE_STATUS_CHECKING_FOR_UPDATE";
          "UPDATE_STATUS_UPDATE_AVAILABLE";
          "UPDATE_STATUS_NEED_PERMISSION_TO_UPDATE";
          "UPDATE_STATUS_DOWNLOADING"; "UPDATE_STATUS_VERIFYING";
          "UPDATE_STATUS_FINALIZING"; "UPDATE_STATUS_UPDATED_NEED_REBOOT";
          "UPDATE_STATUS_REPORTING_ERROR_EVENT";
          "UPDATE_STATUS_ATTEMPTING_ROLLBACK"; "UPDATE_STATUS_DISABLED";
          "UPDATE_STATUS_CLEANUP_PREVIOUS_UPDATE"]
    /\ (forall st : UpdateStatus, In st all_UpdateStatus).
Proof.
  intros fmt s Hv1 Hv2 Hp1 Hp2. split; [|split].
  - exists (status_store fmt s). split; [|split; [|split]].
    + unfold UpdateEngineStatusToString. rewrite status_store_entries.
      rewrite LoadFromString_SaveToString; [reflexivity|].
      repeat (constructor; [cbn [fst snd]; split; [reflexivity|] |]);
        try constructor;
        try apply UpdateStatusToString_plain; try apply bool_value_plain;
        try apply format_int_plain;
        unfold plain_value; [rewrite Hv1, Hv2 | rewrite Hp1, Hp2];
        reflexivity.
    + rewrite status_store_entries. intros key. simpl. tauto.
    + rewrite status_store_entries. reflexivity.
    + rewrite status_store_entries. destruct (status s); reflexivity.
  - reflexivity.
  - intros st. destruct st; simpl; tauto.
Qed.

Definition status_downloading : UpdateEngineStatus := {|
  last_checked_time := 156000000;
  progress := 0.5%float;
  new_size_bytes := 888;
  status := DOWNLOADING;
  new_version := "12345.0.0";
  is_enterprise_rollback := false;
  is_install := false;
  will_powerwash_after_reboot := true
|}.

Lemma status_blob_has_the_eight_keys_witness :
  blob_has_the_eight_keys (fun _ => "0.5") status_downloading
  /\ GetString "CURRENT_OP"
       (status_store (fun _ => "0.5") status_downloading)
     = Some "UPDATE_STATUS_DOWNLOADING".
Proof.
  destruct (status_blob_has_the_eight_keys (fun _ => "0.5")
              status_downloading eq_refl eq_refl eq_refl eq_refl)
    as [Hblob _].
  split; [exact Hblob | reflexivity].
Defined.

(* ===================================================================== *)
(** * The exit codes of the client *)
(* ===================================================================== *)

(** [--switch_slot] was not given, or was given [true] or [false]. *)
Definition switch_slot_is_valid (F : Flags) : Prop :=
  String.eqb (FLAGS_switch_slot F) UNSPECIFIED_FLAG = true
  \/ String.eqb (FLAGS_switch_slot F) "true" = true
  \/ String.eqb (FLAGS_switch_slot F) "false" = true.


Lemma Run_waiting_needs_follow_or_merge env argc args F c :
  Run env argc args F = Waiting c ->
  FLAGS_follow F = true \/ FLAGS_merge F = true.
Proof.
  intros H. OnInit_paths H; try discriminate; try congruence; auto.
Qed.

(** A status that is logged by [ExitWhenIdle(const Status&)] is not ok,
    and its exception code is the exit code of the run. *)
Lemma logged_status_is_the_exit_code env argc args F st :
  PostTask env = true ->
  In (LogStatus st) (log (snd (OnInit env argc args F State_init))) ->
  isOk st = false /\ Run env argc args F = Exited (exceptionCode st).
Proof.
  intros Hpost Hlog. unfold Run.
  destruct (OnInit env argc args F State_init) as [r c] eqn:E.
  cbn [snd] in Hlog.
  unfold OnInit, OnInit_commands, OnInit_tail, ExitWhenIdle_Status,
    ExitWhenIdle in E.
  rewrite ?Hpost in E. cbn [negb] in E.
  OnInit_paths E; injection E as <- <-; cbn in Hlog;
    repeat match type of Hlog with
           | _ \/ _ => destruct Hlog as [Hlog | Hlog]
           end;
    try contradiction; try discriminate Hlog;
    injection Hlog as <-;
    (split; [assumption || (apply negb_true_iff; assumption) | reflexivity]).
Qed.


(** The service cannot be found. *)
Definition env_no_service : Environment := {|
  Daemon_OnInit := EX_OK;
  getService := -2;
  PostTask := true;
  service_ := service_ok
|}.

